(** * Binance.us CSV input plugin (dali/plugin/input/csv/binance.py)

    A shallow embedding of [InputPlugin.load]: the loop over the rows of the
    CSV export, the classification of each row by its transaction type and
    the keyword arguments handed to the transaction constructors.

    Python strings are sequences of Unicode code points; dictionaries of
    keyword arguments are finite maps from parameter names to strings; the
    local list [result] and the logger are threaded through a state monad in
    which an [IndexError] (or any other exception) aborts the computation. *)

From Stdlib Require Import NArith Ascii String Lia.
From stdpp Require Import base option list strings gmap fin_maps.

(** ** Strings *)

(** A Python [str]: its code points. *)
Abbreviation str := (list N).

(** A literal of the source, all of which are ASCII. *)
Definition lit (s : string) : str :=
  (λ a, N_of_ascii a) <$> list_ascii_of_string s.

(** [str.isspace] on one code point: the characters [str.strip()] removes
    (CPython's [_PyUnicode_IsWhitespace]). *)
Definition isspace (c : N) : bool :=
  ((9 <=? c) && (c <=? 13)
   || (28 <=? c) && (c <=? 32)
   || (c =? 133) || (c =? 160) || (c =? 5760)
   || (8192 <=? c) && (c <=? 8202)
   || (c =? 8232) || (c =? 8233) || (c =? 8239) || (c =? 8287)
   || (c =? 12288))%N.

Fixpoint lstrip (s : str) : str :=
  match s with
  | c :: s' => if isspace c then lstrip s' else s
  | [] => []
  end.

Definition rstrip (s : str) : str := reverse (lstrip (reverse s)).

(** [s.strip()] *)
Definition strip (s : str) : str := rstrip (lstrip s).

(** [sep.join(fields)] *)
Fixpoint join (sep : str) (fields : list str) : str :=
  match fields with
  | [] => []
  | [f] => f
  | f :: fields' => f ++ sep ++ join sep fields'
  end.

(** [x in candidates], with [==] on strings. *)
Definition py_in (x : str) (candidates : list str) : bool :=
  existsb (λ c, bool_decide (x = c)) candidates.

(** ** Dictionaries of keyword arguments *)

(** [a | b]: the union in which the right operand's entries win. *)
Definition dict_or (a b : gmap string str) : gmap string str := b ∪ a.

(** ** Transactions, log records, exceptions *)

(** The constructors of [dali] are called with keyword arguments only; a
    transaction is recorded as the constructor and the arguments it got. *)
Inductive AbstractTransaction : Type :=
| InTransaction (kwargs : gmap string str)
| IntraTransaction (kwargs : gmap string str)
| OutTransaction (kwargs : gmap string str).

Definition kwargs_of (t : AbstractTransaction) : gmap string str :=
  match t with
  | InTransaction kw | IntraTransaction kw | OutTransaction kw => kw
  end.

(** The members of [dali.configuration.Keyword] the plugin uses. *)
Inductive Keyword : Type := BUY | SELL | INCOME | INTEREST | UNKNOWN.

Inductive level : Type := DEBUG | ERROR.

(** An argument of a logging call: a string, or the header (a list). *)
Inductive log_arg : Type :=
| LStr (s : str)
| LList (l : list str).

(** One call of [logger.debug] or [logger.error]: the format and its
    arguments, as [logging] keeps them. *)
Record LogRecord : Type := mkLog {
  levelname : level;
  msg : string;
  args : list log_arg
}.

Inductive exn : Type := IndexError | StopIteration | OSError.

Inductive outcome (A : Type) : Type :=
| Return (a : A)
| Raise (e : exn).
Arguments Return {A} a.
Arguments Raise {A} e.

(** ** The state of one call of [load] *)

Record State : Type := mkState {
  result : list AbstractTransaction;
  logged : list LogRecord
}.

Definition M (A : Type) : Type := State → State * outcome A.

#[global] Instance M_ret : MRet M := λ A a st, (st, Return a).

#[global] Instance M_bind : MBind M := λ A B f m st,
  match m st with
  | (st', Return a) => f a st'
  | (st', Raise e) => (st', Raise e)
  end.

#[global] Instance M_fmap : FMap M := λ A B f m st,
  match m st with
  | (st', Return a) => (st', Return (f a))
  | (st', Raise e) => (st', Raise e)
  end.

Definition raise {A : Type} (e : exn) : M A := λ st, (st, Raise e).

(** [result.append(t)] *)
Definition append (t : AbstractTransaction) : M unit := λ st,
  (mkState (result st ++ [t]) (logged st), Return ()).

Definition emit (r : LogRecord) : M unit := λ st,
  (mkState (result st) (logged st ++ [r]), Return ()).

(** [logger.debug(msg, *args)] and [logger.error(msg, *args)] *)
Definition debug (m : string) (a : list log_arg) : M unit := emit (mkLog DEBUG m a).
Definition error (m : string) (a : list log_arg) : M unit := emit (mkLog ERROR m a).

(** [line[i]]: an [IndexError] when the row has no field [i]. *)
Definition getitem (line : list str) (i : nat) : M str :=
  match line !! i with
  | Some x => mret x
  | None => raise IndexError
  end.

(** The state in which [load] starts: [result = []], nothing logged. *)
Definition initial : State := mkState [] [].

(** [return result] *)
Definition return_result : M (list AbstractTransaction) := λ st,
  (st, Return (result st)).

(** ** The plugin *)

Definition _CRYPTO_DEPOSIT : str := lit "Crypto Deposit".
Definition _SELL : str := lit "Sell".
Definition _BUY : str := lit "Buy".
Definition _CRYPTO_WITHDRAWAL : str := lit "Crypto Withdrawal".
Definition _USD_DEPOSIT : str := lit "USD Deposit".
Definition _REFERRAL_COMMISSION : str := lit "Referral Commission".
Definition _STAKING_REWARDS : str := lit "Staking Rewards".
Definition _OTHERS : str := lit "Others".

Definition __BINANCE : str := lit "Binance.us".

Definition __TIMESTAMP_INDEX : nat := 1.
Definition __TRANSACTION_CATEGORY_INDEX : nat := 2.
Definition __TRANSACTION_TYPE_INDEX : nat := 3.
Definition __TRANSACTION_ID_INDEX : nat := 5.
Definition __CURRENCY_INDEX : nat := 6.
Definition __BASE_ASSET_INDEX : nat := 9.
Definition __BASE_ASSET_AMOUNT_INDEX : nat := 10.
Definition __BASE_ASSET_AMOUNT_SPOT_PRICE_INDEX : nat := 11.
Definition __PRIMARY_ASSET_AMOUNT : nat := 7.
Definition __PRIMARY_ASSET_SPOT_PRICE : nat := 8.

Definition __DELIMITER : str := lit ",".

(** The attributes [__init__] sets: the two of [AbstractInputPlugin], the
    path of the export, and the name of the logger it creates. *)
Record InputPlugin : Type := mkInputPlugin {
  account_holder : str;
  native_fiat : option str;
  transaction_csv_file : str;
  logger_name : str
}.

Definition InputPlugin_init (account_holder transaction_csv_file : str)
    (native_fiat : option str) : InputPlugin :=
  mkInputPlugin account_holder native_fiat transaction_csv_file
    (__BINANCE ++ lit "/" ++ account_holder).

(** ** Sample exports

    Rows of an export in the format of the header comment of the source
    (21 columns), and an instance of what the plugin is given, on which the
    definitions below are run. *)

(** The fields of a line that has no quoted field: split at [sep]. *)
Fixpoint split_at (sep : N) (s : str) : list str :=
  match s with
  | [] => [[]]
  | c :: s' =>
      if (c =? sep)%N then [] :: split_at sep s'
      else match split_at sep s' with
           | f :: fs => (c :: f) :: fs
           | [] => [[c]]
           end
  end.

Definition cells (text : string) : list str := split_at 44 (lit text).

Definition sample_header : list str :=
  cells "User_Id,Time,Category,Operation,Order_Id,Transaction_Id,Primary_Asset,Realized_Amount_For_Primary_Asset,Realized_Amount_For_Primary_Asset_In_USD_Value,Base_Asset,Realized_Amount_For_Base_Asset,Realized_Amount_For_Base_Asset_In_USD_Value,Quote_Asset,Realized_Amount_For_Quote_Asset,Realized_Amount_For_Quote_Asset_In_USD_Value,Fee_Asset,Realized_Amount_For_Fee_Asset,Realized_Amount_For_Fee_Asset_In_USD_Value,Payment_Method,Withdrawal_Method,Additional_Note".

Definition sample_staking : list str :=
  cells "U1,2022-01-01 10:00:00,Earn,Staking Rewards,,TX1,ADA,5.0,4.50,,,,,,,,,,,,".

Definition sample_referral : list str :=
  cells "U1,2022-01-01 11:00:00,Distribution,Referral Commission,,TX5,BNB,0.02,6.10,,,,,,,,,,,,".

Definition sample_usd_deposit : list str :=
  cells "U1,2022-01-02 08:00:00,Distribution,USD Deposit,,TX2,USD,100.00,100.00,,,,,,,,,,,,".

Definition sample_eur_deposit : list str :=
  cells "U1,2022-01-02 09:00:00,Distribution,EUR Deposit,,TX3,EUR,100.00,113.00,,,,,,,,,,,,".

Definition sample_buy : list str :=
  cells "U1,2022-01-03 09:00:00,Spot Trading,Buy,O1,TX4,BTC,0.01,400.00,BTC,0.01,400.00,USD,400.00,400.00,BNB,0.001,0.30,Wallet,,".

Definition sample_sell : list str :=
  cells "U1,2022-01-04 09:30:00,Spot Trading,Sell,O2,TX6,ETH,0.5,1500.00,ETH,0.5,1500.00,USD,1500.00,1500.00,BNB,0.002,0.60,Wallet,,".

Definition sample_crypto_deposit : list str :=
  cells "U1,2022-01-05 12:00:00,Deposit,Crypto Deposit,,TX7,BTC,0.25,10000.00,,,,,,,,,,,,".

Definition sample_crypto_withdrawal : list str :=
  cells "U1,2022-01-06 13:00:00,Withdrawal,Crypto Withdrawal,,TX8,BTC,0.1,4100.00,,,,,,,BTC,0.0005,20.50,,Crypto,".

Definition sample_others : list str :=
  cells "U1,2022-01-07 14:00:00,Distribution,Others,,TX9,USD,1.00,1.00,,,,,,,,,,,,".

(** A row cut after its transaction type, and a staking row cut after its
    primary asset. *)
Definition sample_short : list str :=
  cells "U1,2022-01-02 08:00:00,Distribution,USD Deposit".

Definition sample_cut_staking : list str :=
  cells "U1,2022-01-01 10:00:00,Earn,Staking Rewards,,TX1,ADA".

(** The "Sell" row above with blanks and a tab around some of its fields. *)
Definition sample_sell_padded : list str :=
  cells "U1, 2022-01-04 09:30:00,Spot Trading,  Sell ,O2,TX6 ,ETH,0.5,1500.00, ETH,0.5 , 1500.00,USD,1500.00,1500.00,BNB,0.002,0.60,Wallet,,".

Definition sample_url : str := lit "https://example.org/issues".

Definition sample_value (k : Keyword) : str :=
  match k with
  | BUY => lit "buy"
  | SELL => lit "sell"
  | INCOME => lit "income"
  | INTEREST => lit "interest"
  | UNKNOWN => lit "__unknown"
  end.

(** A plugin constructed with a reporting currency other than USD. *)
Definition sample_plugin : InputPlugin :=
  InputPlugin_init (lit "alice") (lit "binance.csv") (Some (lit "EUR")).

(** The same plugin constructed without a reporting currency. *)
Definition sample_plugin_default : InputPlugin :=
  InputPlugin_init (lit "alice") (lit "binance.csv") None.

(** A file system that holds one export, at the path of [sample_plugin]. *)
Definition sample_file (lines : list (list str)) (path : str) : option (list (list str)) :=
  if bool_decide (path = lit "binance.csv") then Some lines else None.

Definition sample_rows : list (list str) :=
  [sample_staking; sample_usd_deposit; sample_buy; sample_others;
   sample_sell; sample_crypto_deposit; sample_crypto_withdrawal;
   sample_referral].

Section Load.

(** What the plugin takes from the rest of [dali] and from its environment:
    [ISSUES_URL] of [AbstractInputPlugin], the string value of each
    [Keyword], and the rows [csv.reader] yields for the file at a path
    ([None] when the file cannot be opened). *)
Variable ISSUES_URL : str.
Variable Keyword_value : Keyword → str.
Variable csv_rows : str → option (list (list str)).

(** Lines 97-103: the arguments every constructor call shares. *)
Definition common_params (transaction_id raw_data timestamp_with_timezone
    category transaction_type : str) : gmap string str :=
  {[ "plugin" := __BINANCE;
     "unique_id" := transaction_id;
     "raw_data" := raw_data;
     "timestamp" := timestamp_with_timezone;
     "notes" := category ++ lit " - " ++ transaction_type ]}.

(** Lines 86-217: the body of [for line in lines]. *)
Definition load_line (self : InputPlugin) (line : list str) : M unit :=
  let raw_data := join __DELIMITER line in
  debug "Transaction: %s" [LStr raw_data];;
  transaction_id ← strip <$> getitem line __TRANSACTION_ID_INDEX;
  transaction_type ← strip <$> getitem line __TRANSACTION_TYPE_INDEX;
  category ← strip <$> getitem line __TRANSACTION_CATEGORY_INDEX;
  currency ← strip <$> getitem line __CURRENCY_INDEX;
  timestamp ← strip <$> getitem line __TIMESTAMP_INDEX;
  let timestamp_with_timezone := timestamp ++ lit " -00:00" in
  let common_params :=
    common_params transaction_id raw_data timestamp_with_timezone
      category transaction_type in
  if py_in transaction_type [_REFERRAL_COMMISSION; _STAKING_REWARDS] then
    let granular_transaction_type :=
      if bool_decide (transaction_type = _REFERRAL_COMMISSION)
      then INCOME else INTEREST in
    currency ← strip <$> getitem line __CURRENCY_INDEX;
    spot_price ← strip <$> getitem line __PRIMARY_ASSET_SPOT_PRICE;
    crypto_in ← strip <$> getitem line __PRIMARY_ASSET_AMOUNT;
    append (InTransaction (dict_or common_params
      {[ "asset" := currency;
         "exchange" := __BINANCE;
         "holder" := account_holder self;
         "transaction_type" := Keyword_value granular_transaction_type;
         "spot_price" := spot_price;
         "crypto_in" := crypto_in;
         "fiat_fee" := lit "0" ]}))
  else if bool_decide (transaction_type = _CRYPTO_DEPOSIT) then
    currency ← strip <$> getitem line __CURRENCY_INDEX;
    crypto_received ← strip <$> getitem line __PRIMARY_ASSET_AMOUNT;
    spot_price ← strip <$> getitem line __PRIMARY_ASSET_SPOT_PRICE;
    append (IntraTransaction (dict_or common_params
      {[ "asset" := currency;
         "crypto_sent" := lit "0";
         "crypto_received" := crypto_received;
         "spot_price" := spot_price;
         "from_exchange" := Keyword_value UNKNOWN;
         "from_holder" := Keyword_value UNKNOWN;
         "to_exchange" := __BINANCE;
         "to_holder" := account_holder self ]}))
  else if bool_decide (transaction_type = _CRYPTO_WITHDRAWAL) then
    crypto_sent ← strip <$> getitem line __PRIMARY_ASSET_AMOUNT;
    spot_price ← strip <$> getitem line __PRIMARY_ASSET_SPOT_PRICE;
    append (IntraTransaction (dict_or common_params
      {[ "crypto_received" := lit "0";
         "asset" := currency;
         "crypto_sent" := crypto_sent;
         "spot_price" := spot_price;
         "from_exchange" := __BINANCE;
         "from_holder" := account_holder self;
         "to_exchange" := Keyword_value UNKNOWN;
         "to_holder" := Keyword_value UNKNOWN ]}))
  else if py_in transaction_type [_BUY; _SELL] then
    asset ← strip <$> getitem line __BASE_ASSET_INDEX;
    crypto_in ← strip <$> getitem line __BASE_ASSET_AMOUNT_INDEX;
    spot_price ← strip <$> getitem line __BASE_ASSET_AMOUNT_SPOT_PRICE_INDEX;
    crypto_fee ← strip <$> getitem line __BASE_ASSET_AMOUNT_SPOT_PRICE_INDEX;
    append (InTransaction (dict_or common_params
      {[ "exchange" := __BINANCE;
         "holder" := account_holder self;
         "transaction_type" := Keyword_value BUY;
         "asset" := asset;
         "crypto_in" := crypto_in;
         "spot_price" := spot_price;
         "crypto_fee" := crypto_fee ]}))
  else if bool_decide (transaction_type = _SELL) then
    assets ← strip <$> getitem line __BASE_ASSET_INDEX;
    crypto_out_no_fee ← strip <$> getitem line __BASE_ASSET_AMOUNT_INDEX;
    spot_price ← strip <$> getitem line __BASE_ASSET_AMOUNT_SPOT_PRICE_INDEX;
    crypto_fee ← strip <$> getitem line __BASE_ASSET_AMOUNT_SPOT_PRICE_INDEX;
    append (OutTransaction (dict_or common_params
      {[ "exchange" := __BINANCE;
         "holder" := account_holder self;
         "transaction_type" := Keyword_value SELL;
         "assets" := assets;
         "crypto_out_no_fee" := crypto_out_no_fee;
         "spot_price" := spot_price;
         "crypto_fee" := crypto_fee ]}))
  else if bool_decide (transaction_type = _USD_DEPOSIT) then
    debug "Skipping USD deposit %s" [LStr raw_data]
  else
    error "Unsupported transaction type (skipping): %s. Please open an issue at %s"
      [LStr raw_data; LStr ISSUES_URL].

(** [for line in lines: ...] *)
Fixpoint for_lines (self : InputPlugin) (lines : list (list str)) : M unit :=
  match lines with
  | [] => mret ()
  | line :: lines' => load_line self line;; for_lines self lines'
  end.

(** Lines 75-219, from the state the call starts in. *)
Definition load_body (self : InputPlugin) : M (list AbstractTransaction) :=
  match csv_rows (transaction_csv_file self) with
  | None => raise OSError
  | Some lines =>
      match lines with
      | [] => raise StopIteration
      | header :: lines' =>
          debug "Header: %s" [LList header];;
          for_lines self lines';;
          return_result
      end
  end.

(** [self.load()]: what the logger received, and the list returned or the
    exception raised. *)
Definition load (self : InputPlugin) : list LogRecord * outcome (list AbstractTransaction) :=
  let '(st, o) := load_body self initial in (logged st, o).

(** ** Notions used in the statements *)

(** Field [i] of a row as the plugin reads it: [line[i].strip()]. *)
Definition field (line : list str) (i : nat) : str := strip (line !!! i).

(** The debug record every row starts with (line 87). *)
Definition trace (line : list str) : LogRecord :=
  mkLog DEBUG "Transaction: %s" [LStr (join __DELIMITER line)].

(** The number of fields a row needs, read off the table of rules: every
    row is asked for indices 1, 2, 3, 5 and 6; the reward and transfer rules
    also read indices 7 and 8, the Buy/Sell rule indices 9, 10 and 11.
    [load_line_raise] and [load_line_return] below show that this is exactly
    what the body reads. *)
Definition required_fields (line : list str) : nat :=
  let transaction_type := field line __TRANSACTION_TYPE_INDEX in
  if py_in transaction_type [_REFERRAL_COMMISSION; _STAKING_REWARDS] then 9
  else if bool_decide (transaction_type = _CRYPTO_DEPOSIT) then 9
  else if bool_decide (transaction_type = _CRYPTO_WITHDRAWAL) then 9
  else if py_in transaction_type [_BUY; _SELL] then 12
  else 7.

(** The records one row contributes to [result]. *)
Definition emitted (self : InputPlugin) (line : list str) : list AbstractTransaction :=
  result (load_line self line initial).1.

(** The attributes every record shares, derived from its row. *)
Definition common_attributes (line : list str) (t : AbstractTransaction) : Prop :=
  kwargs_of t !! "plugin" = Some __BINANCE
  ∧ kwargs_of t !! "unique_id" = Some (field line __TRANSACTION_ID_INDEX)
  ∧ kwargs_of t !! "raw_data" = Some (join __DELIMITER line)
  ∧ kwargs_of t !! "timestamp" =
      Some (field line __TIMESTAMP_INDEX ++ lit " -00:00")
  ∧ kwargs_of t !! "notes" =
      Some (field line __TRANSACTION_CATEGORY_INDEX ++ lit " - "
            ++ field line __TRANSACTION_TYPE_INDEX).

(** ** Running the monad *)

Lemma run_bind {A B} (m : M A) (f : A → M B) st :
  (m ≫= f) st =
  match m st with
  | (st', Return a) => f a st'
  | (st', Raise e) => (st', Raise e)
  end.
Proof. reflexivity. Qed.

Lemma run_field line i st :
  i < length line → (strip <$> getitem line i) st = (st, Return (field line i)).
Proof.
  intros Hi. unfold field, getitem, fmap, M_fmap.
  destruct (lookup_lt_is_Some_2 line i Hi) as [x Hx].
  rewrite Hx. by rewrite (list_lookup_total_correct _ _ _ Hx).
Qed.

Lemma run_field_short line i st :
  length line ≤ i → (strip <$> getitem line i) st = (st, Raise IndexError).
Proof.
  intros Hi. unfold getitem, fmap, M_fmap.
  by rewrite (lookup_ge_None_2 line i Hi).
Qed.

Lemma run_emit r st :
  emit r st = (mkState (result st) (logged st ++ [r]), Return ()).
Proof. reflexivity. Qed.

Lemma run_append t st :
  append t st = (mkState (result st ++ [t]) (logged st), Return ()).
Proof. reflexivity. Qed.

Ltac len :=
  unfold __TIMESTAMP_INDEX, __TRANSACTION_CATEGORY_INDEX,
    __TRANSACTION_TYPE_INDEX, __TRANSACTION_ID_INDEX, __CURRENCY_INDEX,
    __BASE_ASSET_INDEX, __BASE_ASSET_AMOUNT_INDEX,
    __BASE_ASSET_AMOUNT_SPOT_PRICE_INDEX, __PRIMARY_ASSET_AMOUNT,
    __PRIMARY_ASSET_SPOT_PRICE in *;
  lia.

(** One statement of the body: a field read that succeeds or fails, or a
    logging call. *)
Ltac run1 :=
  rewrite run_bind;
  first [ rewrite run_field by len
        | rewrite run_field_short by len
        | unfold debug, error; rewrite run_emit ];
  cbv beta iota.

Ltac run := unfold load_line; cbv zeta; repeat run1;
  cbn [result logged].

Lemma load_line_short self line st :
  length line < 7 →
  load_line self line st =
    (mkState (result st) (logged st ++ [trace line]), Raise IndexError).
Proof.
  intros Hl. unfold load_line. cbv zeta. run1.
  destruct (decide (length line ≤ 5)).
  { run1. reflexivity. }
  repeat run1. reflexivity.
Qed.

(** Use the conditions already decided ([H : b = true] or [b = false]). *)
Ltac conds :=
  repeat match goal with
         | H : ?b = _ |- context [if ?b then _ else _] => rewrite H
         end;
  cbv iota.

Ltac kw_lookup := unfold dict_or, common_params; vm_compute; reflexivity.

Ltac common := unfold common_attributes, kwargs_of; repeat split; kw_lookup.

Lemma required_fields_ge line : 7 ≤ required_fields line.
Proof. unfold required_fields. cbv zeta. repeat case_match; lia. Qed.

(** A row with fewer fields than its rule reads: the first read out of range
    raises, after the trace and before anything else is logged or appended. *)
Lemma load_line_raise self line st :
  length line < required_fields line →
  load_line self line st =
    (mkState (result st) (logged st ++ [trace line]), Raise IndexError).
Proof.
  destruct (decide (length line < 7)) as [Hs|Hs].
  { intros _. by apply load_line_short. }
  unfold required_fields. cbv zeta.
  destruct (py_in _ [_REFERRAL_COMMISSION; _STAKING_REWARDS]) eqn:E1;
    [|destruct (bool_decide (_ = _CRYPTO_DEPOSIT)) eqn:E2;
      [|destruct (bool_decide (_ = _CRYPTO_WITHDRAWAL)) eqn:E3;
        [|destruct (py_in _ [_BUY; _SELL]) eqn:E4]]];
    intros H; try lia; run; conds.
  - run. reflexivity.
  - run. destruct (decide (length line ≤ 7)); run; reflexivity.
  - destruct (decide (length line ≤ 7)); run; reflexivity.
  - destruct (decide (length line ≤ 9)); [run; reflexivity|].
    destruct (decide (length line ≤ 10)); run; reflexivity.
Qed.

(** A row with the fields its rule reads: the body returns, having appended
    at most one record, which carries the common attributes of the row and
    is no [OutTransaction]. *)
Lemma load_line_return self line :
  required_fields line ≤ length line →
  ∃ recs logs,
    (∀ st, load_line self line st =
       (mkState (result st ++ recs) (logged st ++ trace line :: logs), Return ()))
    ∧ length recs ≤ 1
    ∧ Forall (common_attributes line) recs
    ∧ Forall (λ t, ∀ kw, t ≠ OutTransaction kw) recs.
Proof.
  pose proof (required_fields_ge line) as Hge. revert Hge.
  unfold required_fields. cbv zeta.
  destruct (py_in _ [_REFERRAL_COMMISSION; _STAKING_REWARDS]) eqn:E1;
    [|destruct (bool_decide (_ = _CRYPTO_DEPOSIT)) eqn:E2;
      [|destruct (bool_decide (_ = _CRYPTO_WITHDRAWAL)) eqn:E3;
        [|destruct (py_in _ [_BUY; _SELL]) eqn:E4;
          [|destruct (bool_decide (field line __TRANSACTION_TYPE_INDEX = _USD_DEPOSIT)) eqn:E5]]]];
    intros _ H.
  1-4: eexists [_], []; split;
    [ intros st; run; conds; run; rewrite run_append; cbn [result logged];
      reflexivity
    | split; [simpl; lia|split; [|by repeat constructor]];
      constructor; [common|constructor] ].
  all: eexists [], [_]; split;
    [ intros st; run; conds; unfold py_in, existsb in E4;
      assert (bool_decide (field line __TRANSACTION_TYPE_INDEX = _SELL) = false) as E6
        by (destruct (bool_decide (_ = _SELL)); [by rewrite orb_true_r in E4|done]);
      conds; unfold debug, error; rewrite run_emit; cbn [result logged];
      rewrite app_nil_r, <- (assoc_L (++)); reflexivity
    | split; [simpl; lia|split; constructor] ].
Qed.

Lemma emitted_return self line recs logs :
  (∀ st, load_line self line st =
     (mkState (result st ++ recs) (logged st ++ logs), Return ())) →
  emitted self line = recs.
Proof. intros H. unfold emitted. by rewrite H. Qed.

Lemma emitted_raise self line :
  length line < required_fields line → emitted self line = [].
Proof. intros H. unfold emitted. by rewrite load_line_raise. Qed.

Lemma emitted_length self line : length (emitted self line) ≤ 1.
Proof.
  destruct (decide (length line < required_fields line)) as [H|H].
  - rewrite emitted_raise by done. simpl. lia.
  - destruct (load_line_return self line) as (recs & logs & Hrun & Hlen & _);
      [lia|].
    by rewrite (emitted_return _ _ _ _ Hrun).
Qed.

Lemma emitted_common self line t :
  t ∈ emitted self line → common_attributes line t.
Proof.
  destruct (decide (length line < required_fields line)) as [H|H].
  - rewrite emitted_raise by done. by intros ?%elem_of_nil.
  - destruct (load_line_return self line) as (recs & logs & Hrun & _ & Hc & _);
      [lia|].
    rewrite (emitted_return _ _ _ _ Hrun).
    intros Ht. by eapply Forall_forall in Hc.
Qed.

Lemma emitted_not_out self line t kw :
  t ∈ emitted self line → t ≠ OutTransaction kw.
Proof.
  destruct (decide (length line < required_fields line)) as [H|H].
  - rewrite emitted_raise by done. by intros ?%elem_of_nil.
  - destruct (load_line_return self line) as (recs & logs & Hrun & _ & _ & Ho);
      [lia|].
    rewrite (emitted_return _ _ _ _ Hrun).
    intros Ht. eapply Forall_forall in Ho; [apply Ho|done].
Qed.

(** The loop over rows that all have the fields they need. *)
Lemma for_lines_return self rows :
  Forall (λ line, required_fields line ≤ length line) rows →
  ∃ logs, ∀ st,
    for_lines self rows st =
      (mkState (result st ++ concat (emitted self <$> rows)) (logged st ++ logs),
       Return ()).
Proof.
  induction 1 as [|line rows Hline _ [logs IH]].
  - exists []. intros [r l]. simpl. by rewrite !app_nil_r.
  - destruct (load_line_return self line Hline) as (recs & logs1 & Hrun & _).
    exists ((trace line :: logs1) ++ logs). intros st.
    cbn [for_lines]. rewrite run_bind, Hrun, IH. cbn [result logged fmap list_fmap concat].
    rewrite (emitted_return _ _ _ _ Hrun). by rewrite !(assoc_L (++)).
Qed.

(** The loop over rows one of which lacks a field its rule reads. *)
Lemma for_lines_raise self rows st :
  Exists (λ line, length line < required_fields line) rows →
  ∃ st', for_lines self rows st = (st', Raise IndexError).
Proof.
  intros H. revert st.
  induction rows as [|line rows IH]; intros st.
  { by apply Exists_nil in H. }
  cbn [for_lines]. rewrite run_bind.
  destruct (decide (length line < required_fields line)) as [Hs|Hs].
  - rewrite load_line_raise by done. eauto.
  - apply Exists_cons in H as [H|H]; [done|].
    destruct (load_line_return self line) as (recs & logs & Hrun & _); [lia|].
    rewrite Hrun. by apply IH.
Qed.

Lemma load_unfold self header rows :
  csv_rows (transaction_csv_file self) = Some (header :: rows) →
  load self =
    let '(st, o) :=
      for_lines self rows (mkState [] [mkLog DEBUG "Header: %s" [LList header]]) in
    (logged st, match o with Return _ => Return (result st) | Raise e => Raise e end).
Proof.
  intros Hf. unfold load, load_body. rewrite Hf.
  rewrite run_bind. unfold debug. rewrite run_emit. cbn [initial result logged app].
  rewrite run_bind. by destruct (for_lines _ _ _) as [st [[]|e]].
Qed.

Lemma load_return self header rows :
  csv_rows (transaction_csv_file self) = Some (header :: rows) →
  Forall (λ line, required_fields line ≤ length line) rows →
  ∃ lg, load self = (lg, Return (concat (emitted self <$> rows))).
Proof.
  intros Hf Hrows. rewrite (load_unfold _ _ _ Hf).
  destruct (for_lines_return self rows Hrows) as [logs Hrun].
  rewrite Hrun. eauto.
Qed.

Lemma load_raise self header rows :
  csv_rows (transaction_csv_file self) = Some (header :: rows) →
  Exists (λ line, length line < required_fields line) rows →
  ∃ lg, load self = (lg, Raise IndexError).
Proof.
  intros Hf Hrows. rewrite (load_unfold _ _ _ Hf).
  destruct (for_lines_raise self rows (mkState [] [mkLog DEBUG "Header: %s" [LList header]]) Hrows) as [st' Hrun].
  rewrite Hrun. eauto.
Qed.

(** Whenever [load] returns, every row had its fields and the list is the
    rows' contributions, in order. *)
Lemma load_returned self header rows lg res :
  csv_rows (transaction_csv_file self) = Some (header :: rows) →
  load self = (lg, Return res) →
  Forall (λ line, required_fields line ≤ length line) rows
  ∧ res = concat (emitted self <$> rows).
Proof.
  intros Hf Hload.
  destruct (decide (Exists (λ line, length line < required_fields line) rows))
    as [Hex|Hex].
  - destruct (load_raise _ _ _ Hf Hex) as [lg' Hr]. congruence.
  - assert (Forall (λ line, required_fields line ≤ length line) rows) as Hall.
    { apply Forall_forall. intros line Hin.
      destruct (decide (required_fields line ≤ length line)); [done|].
      exfalso. apply Hex, Exists_exists. exists line. split; [done|lia]. }
    split; [done|].
    destruct (load_return _ _ _ Hf Hall) as [lg' Hr]. congruence.
Qed.

(** ** The rules, row by row *)

(** The combined Buy/Sell rule (lines 173-191), with the dictionary the
    constructor receives. *)
Lemma load_line_buy_sell self line st :
  12 ≤ length line →
  field line __TRANSACTION_TYPE_INDEX = _BUY
  ∨ field line __TRANSACTION_TYPE_INDEX = _SELL →
  load_line self line st =
    (mkState
       (result st ++
        [InTransaction (dict_or
           (common_params (field line __TRANSACTION_ID_INDEX)
              (join __DELIMITER line)
              (field line __TIMESTAMP_INDEX ++ lit " -00:00")
              (field line __TRANSACTION_CATEGORY_INDEX)
              (field line __TRANSACTION_TYPE_INDEX))
           {[ "exchange" := __BINANCE;
              "holder" := account_holder self;
              "transaction_type" := Keyword_value BUY;
              "asset" := field line __BASE_ASSET_INDEX;
              "crypto_in" := field line __BASE_ASSET_AMOUNT_INDEX;
              "spot_price" := field line __BASE_ASSET_AMOUNT_SPOT_PRICE_INDEX;
              "crypto_fee" := field line __BASE_ASSET_AMOUNT_SPOT_PRICE_INDEX ]})])
       (logged st ++ [trace line]),
     Return ()).
Proof.
  intros Hl Ht.
  assert (py_in (field line __TRANSACTION_TYPE_INDEX)
            [_REFERRAL_COMMISSION; _STAKING_REWARDS] = false) as E1
    by (destruct Ht as [-> | ->]; reflexivity).
  assert (bool_decide (field line __TRANSACTION_TYPE_INDEX = _CRYPTO_DEPOSIT) = false) as E2
    by (destruct Ht as [-> | ->]; reflexivity).
  assert (bool_decide (field line __TRANSACTION_TYPE_INDEX = _CRYPTO_WITHDRAWAL) = false) as E3
    by (destruct Ht as [-> | ->]; reflexivity).
  assert (py_in (field line __TRANSACTION_TYPE_INDEX) [_BUY; _SELL] = true) as E4
    by (destruct Ht as [-> | ->]; reflexivity).
  run. conds. run. by rewrite run_append.
Qed.

Lemma field_insert_ne line i j x :
  i ≠ j → field (<[i:=x]> line) j = field line j.
Proof. intros. unfold field. by rewrite list_lookup_total_insert_ne. Qed.

Lemma field_insert_eq line i x :
  i < length line → field (<[i:=x]> line) i = strip x.
Proof. intros. unfold field. by rewrite list_lookup_total_insert_eq. Qed.

(** Two calls that differ in the audit string and the note only pass the
    same value for every other parameter. *)
Lemma dict_or_common_params_other id raw raw' ts cat cat' tt tt' specific k :
  k ≠ "raw_data" → k ≠ "notes" →
  dict_or (common_params id raw ts cat tt) specific !! k
  = dict_or (common_params id raw' ts cat' tt') specific !! k.
Proof.
  intros Hraw Hnotes. unfold dict_or. rewrite !lookup_union. f_equal.
  unfold common_params.
  destruct (decide (k = "plugin")) as [->|]; [by rewrite !lookup_insert_eq|].
  rewrite !(lookup_insert_ne _ "plugin") by done.
  destruct (decide (k = "unique_id")) as [->|]; [by rewrite !lookup_insert_eq|].
  rewrite !(lookup_insert_ne _ "unique_id") by done.
  rewrite !(lookup_insert_ne _ "raw_data") by done.
  destruct (decide (k = "timestamp")) as [->|]; [by rewrite !lookup_insert_eq|].
  rewrite !(lookup_insert_ne _ "timestamp") by done.
  by rewrite !lookup_singleton_ne.
Qed.

(** C1: a row whose transaction type is "Sell" is handled by the combined
    Buy/Sell rule: exactly one record is appended, an [InTransaction] (no
    [OutTransaction]) whose [transaction_type] is the value of [Keyword.BUY]
    and whose asset, amount and spot price are the base-asset, base-asset
    amount and base-asset USD-value fields (read with surrounding whitespace
    removed, as every field is).  The same row with "Buy" as its type yields
    an [InTransaction] with the same arguments, apart from the audit string
    and the note, which quote the type. *)
Theorem sell_row_mapped_as_buy self line st :
  12 ≤ length line →
  field line __TRANSACTION_TYPE_INDEX = _SELL →
  ∃ kw,
    load_line self line st =
      (mkState (result st ++ [InTransaction kw]) (logged st ++ [trace line]),
       Return ())
    ∧ kw !! "transaction_type" = Some (Keyword_value BUY)
    ∧ kw !! "asset" = Some (field line __BASE_ASSET_INDEX)
    ∧ kw !! "crypto_in" = Some (field line __BASE_ASSET_AMOUNT_INDEX)
    ∧ kw !! "spot_price" = Some (field line __BASE_ASSET_AMOUNT_SPOT_PRICE_INDEX)
    ∧ ∃ kw_buy,
        load_line self (<[__TRANSACTION_TYPE_INDEX := _BUY]> line) st =
          (mkState (result st ++ [InTransaction kw_buy])
             (logged st ++ [trace (<[__TRANSACTION_TYPE_INDEX := _BUY]> line)]),
           Return ())
        ∧ ∀ k, k ≠ "raw_data" → k ≠ "notes" → kw_buy !! k = kw !! k.
Proof.
  intros Hl Ht. eexists. split; [by apply load_line_buy_sell; [|right]|].
  do 4 (split; [kw_lookup|]).
  eexists. split.
  - apply load_line_buy_sell; [by rewrite length_insert|left].
    rewrite field_insert_eq by len. reflexivity.
  - intros k Hraw Hnotes.
    rewrite !(field_insert_ne line _ __TRANSACTION_ID_INDEX),
      !(field_insert_ne line _ __TIMESTAMP_INDEX),
      !(field_insert_ne line _ __BASE_ASSET_INDEX),
      !(field_insert_ne line _ __BASE_ASSET_AMOUNT_INDEX),
      !(field_insert_ne line _ __BASE_ASSET_AMOUNT_SPOT_PRICE_INDEX) by len.
    by apply dict_or_common_params_other.
Qed.

(** C4 (as amended): for a row handled by the Buy/Sell rule, the fee passed
    to the constructor is the base-asset USD-value field, the very value
    passed as spot price; it is passed as [crypto_fee], and no [fiat_fee] is
    passed. *)
Theorem buy_sell_fee_is_crypto_fee self line st :
  12 ≤ length line →
  field line __TRANSACTION_TYPE_INDEX = _BUY
  ∨ field line __TRANSACTION_TYPE_INDEX = _SELL →
  ∃ kw,
    load_line self line st =
      (mkState (result st ++ [InTransaction kw]) (logged st ++ [trace line]),
       Return ())
    ∧ kw !! "crypto_fee" = Some (field line __BASE_ASSET_AMOUNT_SPOT_PRICE_INDEX)
    ∧ kw !! "crypto_fee" = kw !! "spot_price"
    ∧ kw !! "fiat_fee" = None.
Proof.
  intros Hl Ht. eexists. split; [by apply load_line_buy_sell|].
  repeat split; kw_lookup.
Qed.

Lemma py_in_false x l : x ∉ l → py_in x l = false.
Proof.
  unfold py_in. induction l as [|c l IH]; [done|].
  intros [Hc Hl]%not_elem_of_cons. cbn [existsb].
  by rewrite bool_decide_eq_false_2, IH.
Qed.

Lemma py_in_true x l : x ∈ l → py_in x l = true.
Proof.
  unfold py_in. induction 1 as [x l|x c l _ IH]; cbn [existsb].
  - by rewrite bool_decide_eq_true_2.
  - by rewrite IH, orb_true_r.
Qed.

(** C2: a row whose transaction type is "Staking Rewards" or "Referral
    Commission" appends exactly one [InTransaction]: its asset is the
    primary-asset field (index 6, stripped), its [fiat_fee] is "0", its
    amount and spot price are the primary-asset amount and spot-price
    fields, and its [transaction_type] is the value of [Keyword.INTEREST]
    for staking rewards and of [Keyword.INCOME] for a referral commission. *)
Theorem reward_row_inflow self line st :
  9 ≤ length line →
  field line __TRANSACTION_TYPE_INDEX = _STAKING_REWARDS
  ∨ field line __TRANSACTION_TYPE_INDEX = _REFERRAL_COMMISSION →
  ∃ kw,
    load_line self line st =
      (mkState (result st ++ [InTransaction kw]) (logged st ++ [trace line]),
       Return ())
    ∧ kw !! "asset" = Some (field line __CURRENCY_INDEX)
    ∧ kw !! "fiat_fee" = Some (lit "0")
    ∧ kw !! "crypto_in" = Some (field line __PRIMARY_ASSET_AMOUNT)
    ∧ kw !! "spot_price" = Some (field line __PRIMARY_ASSET_SPOT_PRICE)
    ∧ (field line __TRANSACTION_TYPE_INDEX = _STAKING_REWARDS →
       kw !! "transaction_type" = Some (Keyword_value INTEREST))
    ∧ (field line __TRANSACTION_TYPE_INDEX = _REFERRAL_COMMISSION →
       kw !! "transaction_type" = Some (Keyword_value INCOME)).
Proof.
  intros Hl Ht.
  assert (py_in (field line __TRANSACTION_TYPE_INDEX)
            [_REFERRAL_COMMISSION; _STAKING_REWARDS] = true) as E1
    by (destruct Ht as [-> | ->]; reflexivity).
  destruct Ht as [Ht|Ht].
  - assert (bool_decide (field line __TRANSACTION_TYPE_INDEX = _REFERRAL_COMMISSION) = false) as E2
      by (by rewrite Ht).
    eexists. split; [run; conds; run; by rewrite run_append|].
    do 4 (split; [kw_lookup|]). split; [intros _; kw_lookup|].
    intros Hr. rewrite Ht in Hr. vm_compute in Hr. discriminate.
  - assert (bool_decide (field line __TRANSACTION_TYPE_INDEX = _REFERRAL_COMMISSION) = true) as E2
      by (by rewrite Ht).
    eexists. split; [run; conds; run; by rewrite run_append|].
    do 4 (split; [kw_lookup|]). split; [|intros _; kw_lookup].
    intros Hr. rewrite Ht in Hr. vm_compute in Hr. discriminate.
Qed.

(** C3: a "Crypto Deposit" row appends exactly one [IntraTransaction] with
    [crypto_sent] "0", [crypto_received] the primary-asset amount field, this
    exchange and the account holder on the receiving side and the value of
    [Keyword.UNKNOWN] on the sending side; a "Crypto Withdrawal" row appends
    one with [crypto_received] "0", [crypto_sent] the primary-asset amount
    field, this exchange and the account holder on the sending side and the
    value of [Keyword.UNKNOWN] on the receiving side.  That value being a
    non-empty string, the unknown side is never absent nor empty. *)
Theorem crypto_transfer_rows self line st :
  9 ≤ length line →
  Keyword_value UNKNOWN ≠ [] →
  (field line __TRANSACTION_TYPE_INDEX = _CRYPTO_DEPOSIT →
   ∃ kw,
     load_line self line st =
       (mkState (result st ++ [IntraTransaction kw]) (logged st ++ [trace line]),
        Return ())
     ∧ kw !! "crypto_sent" = Some (lit "0")
     ∧ kw !! "crypto_received" = Some (field line __PRIMARY_ASSET_AMOUNT)
     ∧ kw !! "to_exchange" = Some __BINANCE
     ∧ kw !! "to_holder" = Some (account_holder self)
     ∧ kw !! "from_exchange" = Some (Keyword_value UNKNOWN)
     ∧ kw !! "from_holder" = Some (Keyword_value UNKNOWN)
     ∧ (∀ k, k = "from_exchange" ∨ k = "from_holder" →
        kw !! k ≠ None ∧ kw !! k ≠ Some []))
  ∧ (field line __TRANSACTION_TYPE_INDEX = _CRYPTO_WITHDRAWAL →
     ∃ kw,
       load_line self line st =
         (mkState (result st ++ [IntraTransaction kw]) (logged st ++ [trace line]),
          Return ())
       ∧ kw !! "crypto_received" = Some (lit "0")
       ∧ kw !! "crypto_sent" = Some (field line __PRIMARY_ASSET_AMOUNT)
       ∧ kw !! "from_exchange" = Some __BINANCE
       ∧ kw !! "from_holder" = Some (account_holder self)
       ∧ kw !! "to_exchange" = Some (Keyword_value UNKNOWN)
       ∧ kw !! "to_holder" = Some (Keyword_value UNKNOWN)
       ∧ (∀ k, k = "to_exchange" ∨ k = "to_holder" →
          kw !! k ≠ None ∧ kw !! k ≠ Some [])).
Proof.
  intros Hl Hu. split; intros Ht.
  - assert (py_in (field line __TRANSACTION_TYPE_INDEX)
              [_REFERRAL_COMMISSION; _STAKING_REWARDS] = false) as E1
      by (by rewrite Ht).
    assert (bool_decide (field line __TRANSACTION_TYPE_INDEX = _CRYPTO_DEPOSIT) = true) as E2
      by (by rewrite Ht).
    eexists. split; [run; conds; run; by rewrite run_append|].
    assert (∀ a b c d e v1 v2 v3 v4 v5 v6 v7 k, k = "from_exchange" ∨ k = "from_holder" →
      dict_or (common_params a b c d e)
        {[ "asset" := v1; "crypto_sent" := v2; "crypto_received" := v3;
           "spot_price" := v4; "from_exchange" := v5; "from_holder" := v5;
           "to_exchange" := v6; "to_holder" := v7 ]} !! k = Some v5) as Hk
      by (intros; destruct_or!; subst; kw_lookup).
    do 6 (split; [kw_lookup|]).
    intros k Hor. rewrite (Hk _ _ _ _ _ _ _ _ _ _ _ _ _ Hor). split; congruence.
  - assert (py_in (field line __TRANSACTION_TYPE_INDEX)
              [_REFERRAL_COMMISSION; _STAKING_REWARDS] = false) as E1
      by (by rewrite Ht).
    assert (bool_decide (field line __TRANSACTION_TYPE_INDEX = _CRYPTO_DEPOSIT) = false) as E2
      by (by rewrite Ht).
    assert (bool_decide (field line __TRANSACTION_TYPE_INDEX = _CRYPTO_WITHDRAWAL) = true) as E3
      by (by rewrite Ht).
    eexists. split; [run; conds; run; by rewrite run_append|].
    assert (∀ a b c d e v1 v2 v3 v4 v5 v6 v7 k, k = "to_exchange" ∨ k = "to_holder" →
      dict_or (common_params a b c d e)
        {[ "crypto_received" := v1; "asset" := v2; "crypto_sent" := v3;
           "spot_price" := v4; "from_exchange" := v6; "from_holder" := v7;
           "to_exchange" := v5; "to_holder" := v5 ]} !! k = Some v5) as Hk
      by (intros; destruct_or!; subst; kw_lookup).
    do 6 (split; [kw_lookup|]).
    intros k Hor. rewrite (Hk _ _ _ _ _ _ _ _ _ _ _ _ _ Hor). split; congruence.
Qed.

(** C5 (as amended): a row whose transaction type is "USD Deposit", whatever
    reporting currency the plugin was constructed with, appends no record;
    after the trace of the row it logs one more record at debug level, the
    skip notice, and nothing at error level, and the loop goes on with the
    next row. *)
Theorem usd_deposit_row_skipped self line rest st :
  7 ≤ length line →
  field line __TRANSACTION_TYPE_INDEX = _USD_DEPOSIT →
  let st' :=
    mkState (result st)
      (logged st ++
       [trace line;
        mkLog DEBUG "Skipping USD deposit %s" [LStr (join __DELIMITER line)]]) in
  load_line self line st = (st', Return ())
  ∧ for_lines self (line :: rest) st = for_lines self rest st'.
Proof.
  intros Hl Ht st'.
  assert (load_line self line st = (st', Return ())) as Hrun.
  { assert (py_in (field line __TRANSACTION_TYPE_INDEX)
              [_REFERRAL_COMMISSION; _STAKING_REWARDS] = false) as E1
      by (by rewrite Ht).
    assert (bool_decide (field line __TRANSACTION_TYPE_INDEX = _CRYPTO_DEPOSIT) = false) as E2
      by (by rewrite Ht).
    assert (bool_decide (field line __TRANSACTION_TYPE_INDEX = _CRYPTO_WITHDRAWAL) = false) as E3
      by (by rewrite Ht).
    assert (py_in (field line __TRANSACTION_TYPE_INDEX) [_BUY; _SELL] = false) as E4
      by (by rewrite Ht).
    assert (bool_decide (field line __TRANSACTION_TYPE_INDEX = _SELL) = false) as E5
      by (by rewrite Ht).
    assert (bool_decide (field line __TRANSACTION_TYPE_INDEX = _USD_DEPOSIT) = true) as E6
      by (by rewrite Ht).
    run. conds. unfold debug. rewrite run_emit. cbn [result logged].
    unfold st'. by rewrite <- (assoc_L (++)). }
  split; [done|]. cbn [for_lines]. by rewrite run_bind, Hrun.
Qed.

(** C6: a row (with the seven fields read for every row) whose transaction
    type is none of the literals the rules test appends no record, logs one
    record at error level, which carries the text of the row and the address
    for issues, and the loop goes on with the next row. *)
Theorem unsupported_row_skipped self line rest st :
  7 ≤ length line →
  field line __TRANSACTION_TYPE_INDEX ∉
    [_REFERRAL_COMMISSION; _STAKING_REWARDS; _CRYPTO_DEPOSIT;
     _CRYPTO_WITHDRAWAL; _BUY; _SELL; _USD_DEPOSIT] →
  let st' :=
    mkState (result st)
      (logged st ++
       [trace line;
        mkLog ERROR
          "Unsupported transaction type (skipping): %s. Please open an issue at %s"
          [LStr (join __DELIMITER line); LStr ISSUES_URL]]) in
  load_line self line st = (st', Return ())
  ∧ for_lines self (line :: rest) st = for_lines self rest st'.
Proof.
  intros Hl Ht st'.
  assert (load_line self line st = (st', Return ())) as Hrun.
  { repeat apply not_elem_of_cons in Ht as [? Ht].
    assert (py_in (field line __TRANSACTION_TYPE_INDEX)
              [_REFERRAL_COMMISSION; _STAKING_REWARDS] = false) as E1
      by (apply py_in_false; by repeat (apply not_elem_of_cons; split)).
    assert (py_in (field line __TRANSACTION_TYPE_INDEX) [_BUY; _SELL] = false) as E4
      by (apply py_in_false; by repeat (apply not_elem_of_cons; split)).
    run. conds. rewrite !bool_decide_eq_false_2 by done. conds.
    unfold error. rewrite run_emit. cbn [result logged].
    unfold st'. by rewrite <- (assoc_L (++)). }
  split; [done|]. cbn [for_lines]. by rewrite run_bind, Hrun.
Qed.

(** ** The whole call *)

(** C7: every record [load] returns stems from a row of the file and
    carries the attributes derived from that row: the timestamp field
    followed by " -00:00", the fields of the row joined by the delimiter as
    [raw_data], the transaction-id field as [unique_id], and the note made of
    the category and the transaction type (fields read stripped). *)
Theorem records_carry_common_attributes self header rows lg res :
  csv_rows (transaction_csv_file self) = Some (header :: rows) →
  load self = (lg, Return res) →
  Forall (λ t, ∃ line,
    line ∈ rows ∧ t ∈ emitted self line
    ∧ kwargs_of t !! "timestamp" =
        Some (field line __TIMESTAMP_INDEX ++ lit " -00:00")
    ∧ kwargs_of t !! "raw_data" = Some (join __DELIMITER line)
    ∧ kwargs_of t !! "unique_id" = Some (field line __TRANSACTION_ID_INDEX)
    ∧ kwargs_of t !! "notes" =
        Some (field line __TRANSACTION_CATEGORY_INDEX ++ lit " - "
              ++ field line __TRANSACTION_TYPE_INDEX)
    ∧ kwargs_of t !! "plugin" = Some __BINANCE) res.
Proof.
  intros Hf Hload.
  destruct (load_returned _ _ _ _ _ Hf Hload) as [_ ->].
  apply Forall_forall. intros t Ht.
  apply list_elem_of_In, in_concat in Ht as (recs & Hrecs & Ht).
  apply list_elem_of_In, list_elem_of_fmap in Hrecs as (line & -> & Hline).
  apply list_elem_of_In in Ht.
  destruct (emitted_common _ _ _ Ht) as (Hp & Hu & Hr & Hts & Hn).
  exists line. by repeat split.
Qed.

(** C8: a row contributes at most one record, and the list [load] returns
    is the concatenation, in the order of the rows, of what each row
    contributes; [load] does return when every row has the fields its rule
    reads. *)
Theorem load_keeps_row_order self header rows :
  csv_rows (transaction_csv_file self) = Some (header :: rows) →
  (∀ line, length (emitted self line) ≤ 1)
  ∧ (∀ lg res, load self = (lg, Return res) →
     res = concat (emitted self <$> rows))
  ∧ (Forall (λ line, required_fields line ≤ length line) rows →
     ∃ lg, load self = (lg, Return (concat (emitted self <$> rows)))).
Proof.
  intros Hf. split; [apply emitted_length|]. split.
  - intros lg res Hload. by destruct (load_returned _ _ _ _ _ Hf Hload).
  - intros Hrows. by apply (load_return _ header).
Qed.

(** C9: when some row of the file has fewer fields than the rule it matches
    reads, [load] raises [IndexError]: it returns no list, whatever the rows
    before the short one contributed. *)
Theorem malformed_row_aborts_load self header rows :
  csv_rows (transaction_csv_file self) = Some (header :: rows) →
  Exists (λ line, length line < required_fields line) rows →
  (∃ lg, load self = (lg, Raise IndexError))
  ∧ ∀ lg res, load self ≠ (lg, Return res).
Proof.
  intros Hf Hex. destruct (load_raise _ _ _ Hf Hex) as [lg Hr].
  split; [eauto|]. intros lg' res. rewrite Hr. congruence.
Qed.

(** C10: a row with fewer than 7 fields raises [IndexError] right after its
    trace, before its transaction type is looked at, whatever that type is;
    a file that holds such a row makes [load] raise. *)
Theorem short_row_aborts_before_classification self line :
  length line < 7 →
  (∀ st, load_line self line st =
     (mkState (result st) (logged st ++ [trace line]), Raise IndexError))
  ∧ (∀ header rows,
       csv_rows (transaction_csv_file self) = Some (header :: rows) →
       line ∈ rows →
       ∃ lg, load self = (lg, Raise IndexError)).
Proof.
  intros Hl. split; [intros st; by apply load_line_short|].
  intros header rows Hf Hin. apply (load_raise _ _ _ Hf).
  apply Exists_exists. exists line. split; [done|].
  pose proof (required_fields_ge line). lia.
Qed.


(** ** The rules as a table

    The loop body, written as two functions of the row: the record a row
    with all its fields is mapped to, and what is logged after its trace.
    [load_line_table] shows that the body computes them. *)

Definition mapped_record (self : InputPlugin) (line : list str) : option AbstractTransaction :=
  let transaction_type := field line __TRANSACTION_TYPE_INDEX in
  let common_params :=
    common_params (field line __TRANSACTION_ID_INDEX) (join __DELIMITER line)
      (field line __TIMESTAMP_INDEX ++ lit " -00:00")
      (field line __TRANSACTION_CATEGORY_INDEX) transaction_type in
  if py_in transaction_type [_REFERRAL_COMMISSION; _STAKING_REWARDS] then
    Some (InTransaction (dict_or common_params
      {[ "asset" := field line __CURRENCY_INDEX;
         "exchange" := __BINANCE;
         "holder" := account_holder self;
         "transaction_type" :=
           Keyword_value
             (if bool_decide (transaction_type = _REFERRAL_COMMISSION)
              then INCOME else INTEREST);
         "spot_price" := field line __PRIMARY_ASSET_SPOT_PRICE;
         "crypto_in" := field line __PRIMARY_ASSET_AMOUNT;
         "fiat_fee" := lit "0" ]}))
  else if bool_decide (transaction_type = _CRYPTO_DEPOSIT) then
    Some (IntraTransaction (dict_or common_params
      {[ "asset" := field line __CURRENCY_INDEX;
         "crypto_sent" := lit "0";
         "crypto_received" := field line __PRIMARY_ASSET_AMOUNT;
         "spot_price" := field line __PRIMARY_ASSET_SPOT_PRICE;
         "from_exchange" := Keyword_value UNKNOWN;
         "from_holder" := Keyword_value UNKNOWN;
         "to_exchange" := __BINANCE;
         "to_holder" := account_holder self ]}))
  else if bool_decide (transaction_type = _CRYPTO_WITHDRAWAL) then
    Some (IntraTransaction (dict_or common_params
      {[ "crypto_received" := lit "0";
         "asset" := field line __CURRENCY_INDEX;
         "crypto_sent" := field line __PRIMARY_ASSET_AMOUNT;
         "spot_price" := field line __PRIMARY_ASSET_SPOT_PRICE;
         "from_exchange" := __BINANCE;
         "from_holder" := account_holder self;
         "to_exchange" := Keyword_value UNKNOWN;
         "to_holder" := Keyword_value UNKNOWN ]}))
  else if py_in transaction_type [_BUY; _SELL] then
    Some (InTransaction (dict_or common_params
      {[ "exchange" := __BINANCE;
         "holder" := account_holder self;
         "transaction_type" := Keyword_value BUY;
         "asset" := field line __BASE_ASSET_INDEX;
         "crypto_in" := field line __BASE_ASSET_AMOUNT_INDEX;
         "spot_price" := field line __BASE_ASSET_AMOUNT_SPOT_PRICE_INDEX;
         "crypto_fee" := field line __BASE_ASSET_AMOUNT_SPOT_PRICE_INDEX ]}))
  else None.

Definition row_notice (line : list str) : list LogRecord :=
  let transaction_type := field line __TRANSACTION_TYPE_INDEX in
  if py_in transaction_type [_REFERRAL_COMMISSION; _STAKING_REWARDS] then []
  else if bool_decide (transaction_type = _CRYPTO_DEPOSIT) then []
  else if bool_decide (transaction_type = _CRYPTO_WITHDRAWAL) then []
  else if py_in transaction_type [_BUY; _SELL] then []
  else if bool_decide (transaction_type = _USD_DEPOSIT) then
    [mkLog DEBUG "Skipping USD deposit %s" [LStr (join __DELIMITER line)]]
  else
    [mkLog ERROR
       "Unsupported transaction type (skipping): %s. Please open an issue at %s"
       [LStr (join __DELIMITER line); LStr ISSUES_URL]].

#[global] Instance level_eq_dec : EqDecision level.
Proof. solve_decision. Defined.

Lemma load_line_table self line st :
  required_fields line ≤ length line →
  load_line self line st =
    (mkState (result st ++ option_list (mapped_record self line))
       (logged st ++ trace line :: row_notice line),
     Return ()).
Proof.
  pose proof (required_fields_ge line) as Hge. revert Hge.
  unfold required_fields, mapped_record, row_notice. cbv zeta.
  destruct (py_in _ [_REFERRAL_COMMISSION; _STAKING_REWARDS]) eqn:E1;
    [|destruct (bool_decide (_ = _CRYPTO_DEPOSIT)) eqn:E2;
      [|destruct (bool_decide (_ = _CRYPTO_WITHDRAWAL)) eqn:E3;
        [|destruct (py_in _ [_BUY; _SELL]) eqn:E4;
          [|destruct (bool_decide (field line __TRANSACTION_TYPE_INDEX = _USD_DEPOSIT)) eqn:E5]]]];
    intros _ H.
  1-4: run; conds; run; by rewrite run_append.
  all: run; conds; unfold py_in, existsb in E4;
    assert (bool_decide (field line __TRANSACTION_TYPE_INDEX = _SELL) = false) as E6
      by (destruct (bool_decide (_ = _SELL)); [by rewrite orb_true_r in E4|done]);
    conds; unfold debug, error; rewrite run_emit; cbn [result logged option_list];
    by rewrite app_nil_r, <- (assoc_L (++)).
Qed.

Lemma emitted_table self line :
  emitted self line =
    if decide (required_fields line ≤ length line)
    then option_list (mapped_record self line) else [].
Proof.
  case_decide.
  - unfold emitted. by rewrite load_line_table.
  - apply emitted_raise. lia.
Qed.

(** What a row with all its fields leaves in the log. *)
Definition row_log (line : list str) : list LogRecord :=
  trace line :: row_notice line.

Lemma for_lines_table self rows st :
  Forall (λ line, required_fields line ≤ length line) rows →
  for_lines self rows st =
    (mkState (result st ++ omap (mapped_record self) rows)
       (logged st ++ concat (row_log <$> rows)),
     Return ()).
Proof.
  intros H. revert st.
  induction H as [|line rows Hline _ IH]; intros st.
  - destruct st. cbn. by rewrite !app_nil_r.
  - cbn [for_lines]. rewrite run_bind, load_line_table by done.
    rewrite IH. cbn [result logged fmap list_fmap concat omap list_omap].
    unfold row_log.
    destruct (mapped_record self line); cbn [option_list];
      by rewrite <- !(assoc_L (++)).
Qed.

(** The loop over two runs of rows: the second run starts where the first
    one returned, and is not started when the first one raised. *)
Lemma for_lines_app self rows rows' st :
  for_lines self (rows ++ rows') st =
    match for_lines self rows st with
    | (st', Return _) => for_lines self rows' st'
    | (st', Raise e) => (st', Raise e)
    end.
Proof.
  revert st. induction rows as [|line rows IH]; intros st; [done|].
  cbn [for_lines app]. rewrite !run_bind.
  destruct (load_line self line st) as [st' [[]|e]]; [apply IH|done].
Qed.

Lemma load_return_inv self lg res :
  load self = (lg, Return res) →
  ∃ header rows, csv_rows (transaction_csv_file self) = Some (header :: rows).
Proof.
  unfold load, load_body.
  destruct (csv_rows (transaction_csv_file self)) as [[|header rows]|];
    [discriminate|eauto|discriminate].
Qed.

Lemma load_table self header rows :
  csv_rows (transaction_csv_file self) = Some (header :: rows) →
  Forall (λ line, required_fields line ≤ length line) rows →
  load self =
    (mkLog DEBUG "Header: %s" [LList header] :: concat (row_log <$> rows),
     Return (omap (mapped_record self) rows)).
Proof.
  intros Hf Hrows. rewrite (load_unfold _ _ _ Hf).
  by rewrite for_lines_table.
Qed.



(** ** Beyond the rules: the call as a whole *)


(** X2: [load] never returns an [OutTransaction]: the only branch that
    builds one stands behind the combined Buy/Sell test. *)
Theorem load_returns_no_out_transaction self lg res :
  load self = (lg, Return res) →
  Forall (λ t, ∀ kw, t ≠ OutTransaction kw) res.
Proof.
  intros Hload.
  destruct (load_return_inv _ _ _ Hload) as (header & rows & Hf).
  destruct (load_returned _ _ _ _ _ Hf Hload) as [_ ->].
  apply Forall_forall. intros t Ht kw.
  apply list_elem_of_In, in_concat in Ht as (recs & Hrecs & Ht).
  apply list_elem_of_In, list_elem_of_fmap in Hrecs as (line & -> & _).
  apply list_elem_of_In in Ht. by eapply emitted_not_out.
Qed.

Lemma load_line_account_holder self self' line st :
  account_holder self = account_holder self' →
  load_line self line st = load_line self' line st.
Proof. intros H. unfold load_line. by rewrite H. Qed.

Lemma for_lines_account_holder self self' rows st :
  account_holder self = account_holder self' →
  for_lines self rows st = for_lines self' rows st.
Proof.
  intros H. revert st. induction rows as [|line rows IH]; intros st; [done|].
  cbn [for_lines]. rewrite !run_bind, (load_line_account_holder _ _ _ _ H).
  destruct (load_line self' line st) as [st' [[]|e]]; [apply IH|done].
Qed.

(** X3: of the attributes [__init__] sets, [load] uses the account holder
    and the path only: two plugins that agree on these log and return the
    same, whatever reporting currency each was given. *)
Theorem load_ignores_native_fiat self self' :
  account_holder self = account_holder self' →
  transaction_csv_file self = transaction_csv_file self' →
  load self = load self'.
Proof.
  intros Hh Hp. unfold load, load_body. rewrite Hp.
  destruct (csv_rows (transaction_csv_file self')) as [[|header rows]|]; [done| |done].
  rewrite !run_bind. unfold debug. rewrite !run_emit.
  rewrite !run_bind, (for_lines_account_holder _ _ _ _ Hh). done.
Qed.

(** X7: the loop stops at the first row that lacks a field: the rows after
    it are not looked at, and the last record logged is the trace of that
    row. *)
Theorem load_stops_at_first_malformed_row self header pre bad post :
  csv_rows (transaction_csv_file self) = Some (header :: pre ++ bad :: post) →
  Forall (λ line, required_fields line ≤ length line) pre →
  length bad < required_fields bad →
  (∀ st, for_lines self (pre ++ bad :: post) st = for_lines self (pre ++ [bad]) st)
  ∧ ∃ lg, load self = (lg ++ [trace bad], Raise IndexError).
Proof.
  intros Hf Hpre Hbad.
  assert (∀ rest st, for_lines self (pre ++ bad :: rest) st =
    (mkState (result st ++ omap (mapped_record self) pre)
       ((logged st ++ concat (row_log <$> pre)) ++ [trace bad]),
     Raise IndexError)) as Hrun.
  { intros rest st. rewrite for_lines_app, for_lines_table by done.
    cbn [for_lines]. by rewrite run_bind, load_line_raise. }
  split; [intros st; by rewrite !Hrun|].
  rewrite (load_unfold _ _ _ Hf), Hrun. cbn [result logged]. eauto.
Qed.

Lemma py_in_spec x l : py_in x l = true ↔ x ∈ l.
Proof.
  split; [|apply py_in_true].
  intros H. destruct (decide (x ∈ l)) as [|Hn]; [done|].
  rewrite py_in_false in H by done. discriminate.
Qed.

(** Every record of a returned list is the record some row is mapped to. *)
Lemma load_result_mapped self header rows lg res :
  csv_rows (transaction_csv_file self) = Some (header :: rows) →
  load self = (lg, Return res) →
  Forall (λ t, ∃ line, line ∈ rows ∧ mapped_record self line = Some t) res.
Proof.
  intros Hf Hload.
  destruct (load_returned _ _ _ _ _ Hf Hload) as [Hrows _].
  rewrite (load_table _ _ _ Hf Hrows) in Hload. injection Hload as _ <-.
  apply Forall_forall. intros t Ht.
  apply list_elem_of_omap in Ht as (line & Hin & Hm). eauto.
Qed.

(** X4: every [InTransaction] that [load] returns names this exchange and
    the account holder, and was given one of two sets of twelve arguments:
    with [fiat_fee] "0" and the value of [Keyword.INCOME] or
    [Keyword.INTEREST] as type, or with [crypto_fee] (equal to the spot
    price) and the value of [Keyword.BUY] as type. *)
Theorem inflow_arguments self lg res :
  load self = (lg, Return res) →
  Forall (λ t, ∀ kw, t = InTransaction kw →
    kw !! "exchange" = Some __BINANCE
    ∧ kw !! "holder" = Some (account_holder self)
    ∧ ((dom kw = {[ "plugin"; "unique_id"; "raw_data"; "timestamp"; "notes";
                    "asset"; "exchange"; "holder"; "transaction_type";
                    "spot_price"; "crypto_in"; "fiat_fee" ]}
        ∧ kw !! "fiat_fee" = Some (lit "0")
        ∧ (kw !! "transaction_type" = Some (Keyword_value INCOME)
           ∨ kw !! "transaction_type" = Some (Keyword_value INTEREST)))
       ∨ (dom kw = {[ "plugin"; "unique_id"; "raw_data"; "timestamp"; "notes";
                      "asset"; "exchange"; "holder"; "transaction_type";
                      "spot_price"; "crypto_in"; "crypto_fee" ]}
          ∧ kw !! "crypto_fee" = kw !! "spot_price"
          ∧ kw !! "transaction_type" = Some (Keyword_value BUY)))) res.
Proof.
  intros Hload.
  destruct (load_return_inv _ _ _ Hload) as (header & rows & Hf).
  eapply Forall_impl; [exact (load_result_mapped _ _ _ _ _ Hf Hload)|].
  intros t (line & _ & Hm) kw ->. revert Hm.
  unfold mapped_record. cbv zeta.
  repeat case_match; intros [= <-].
  - do 2 (split; [kw_lookup|]). left. repeat split; [kw_lookup..|left; kw_lookup].
  - do 2 (split; [kw_lookup|]). left. repeat split; [kw_lookup..|right; kw_lookup].
  - do 2 (split; [kw_lookup|]). right. repeat split; kw_lookup.
Qed.

(** X5: every [IntraTransaction] that [load] returns was given the same
    thirteen arguments, none of them a fee; its asset and spot price are the
    primary-asset and primary-asset USD-value fields of the row it stems
    from, and one of its two amounts is the literal "0". *)
Theorem transfer_arguments self header rows lg res :
  csv_rows (transaction_csv_file self) = Some (header :: rows) →
  load self = (lg, Return res) →
  Forall (λ t, ∀ kw, t = IntraTransaction kw →
    dom kw = {[ "plugin"; "unique_id"; "raw_data"; "timestamp"; "notes";
                "asset"; "crypto_sent"; "crypto_received"; "spot_price";
                "from_exchange"; "from_holder"; "to_exchange"; "to_holder" ]}
    ∧ kw !! "crypto_fee" = None
    ∧ kw !! "fiat_fee" = None
    ∧ (kw !! "crypto_sent" = Some (lit "0")
       ∨ kw !! "crypto_received" = Some (lit "0"))
    ∧ ∃ line,
        line ∈ rows
        ∧ kw !! "unique_id" = Some (field line __TRANSACTION_ID_INDEX)
        ∧ kw !! "asset" = Some (field line __CURRENCY_INDEX)
        ∧ kw !! "spot_price" = Some (field line __PRIMARY_ASSET_SPOT_PRICE)) res.
Proof.
  intros Hf Hload.
  eapply Forall_impl; [exact (load_result_mapped _ _ _ _ _ Hf Hload)|].
  intros t (line & Hin & Hm) kw ->. revert Hm.
  unfold mapped_record. cbv zeta.
  repeat case_match; intros [= <-].
  - do 3 (split; [kw_lookup|]). split; [left; kw_lookup|].
    exists line. split; [done|]. repeat split; kw_lookup.
  - do 3 (split; [kw_lookup|]). split; [right; kw_lookup|].
    exists line. split; [done|]. repeat split; kw_lookup.
Qed.

Lemma mapped_record_is_Some self line :
  is_Some (mapped_record self line) ↔
  field line __TRANSACTION_TYPE_INDEX ∈
    [_REFERRAL_COMMISSION; _STAKING_REWARDS; _CRYPTO_DEPOSIT;
     _CRYPTO_WITHDRAWAL; _BUY; _SELL].
Proof.
  unfold mapped_record. cbv zeta.
  destruct (py_in _ [_REFERRAL_COMMISSION; _STAKING_REWARDS]) eqn:E1;
    [|destruct (bool_decide (_ = _CRYPTO_DEPOSIT)) eqn:E2;
      [|destruct (bool_decide (_ = _CRYPTO_WITHDRAWAL)) eqn:E3;
        [|destruct (py_in _ [_BUY; _SELL]) eqn:E4]]].
  - apply py_in_spec in E1. split; [intros _|by eauto].
    apply elem_of_cons in E1 as [->|E1]; [by left|].
    apply list_elem_of_singleton in E1 as ->. by right; left.
  - apply bool_decide_eq_true in E2. split; [intros _|by eauto].
    rewrite E2. by do 2 right; left.
  - apply bool_decide_eq_true in E3. split; [intros _|by eauto].
    rewrite E3. by do 3 right; left.
  - apply py_in_spec in E4. split; [intros _|by eauto].
    apply elem_of_cons in E4 as [->|E4]; [by do 4 right; left|].
    apply list_elem_of_singleton in E4 as ->. by do 5 right; left.
  - split; [by intros [? [=]]|]. intros Hin. exfalso.
    apply bool_decide_eq_false in E2, E3.
    repeat (apply elem_of_cons in Hin as [Hin|Hin]);
      try (rewrite Hin in E1; discriminate E1);
      try (rewrite Hin in E4; discriminate E4); try done.
    by apply elem_of_nil in Hin.
Qed.

(** X6: when [load] returns, it returns as many records as the file has
    rows whose transaction type is one of the six mapped literals. *)
Theorem load_result_length self header rows lg res :
  csv_rows (transaction_csv_file self) = Some (header :: rows) →
  load self = (lg, Return res) →
  length res =
    length (filter (λ line, field line __TRANSACTION_TYPE_INDEX ∈
       [_REFERRAL_COMMISSION; _STAKING_REWARDS; _CRYPTO_DEPOSIT;
        _CRYPTO_WITHDRAWAL; _BUY; _SELL]) rows).
Proof.
  intros Hf Hload.
  destruct (load_returned _ _ _ _ _ Hf Hload) as [Hrows _].
  rewrite (load_table _ _ _ Hf Hrows) in Hload. injection Hload as _ <-.
  clear Hf Hrows. induction rows as [|line rows IH]; [done|].
  cbn [omap list_omap]. rewrite filter_cons.
  pose proof (mapped_record_is_Some self line) as Hs.
  destruct (mapped_record self line) as [t|]; case_decide as Hin; cbn [length].
  - by rewrite IH.
  - exfalso. apply Hin, Hs. eauto.
  - apply Hs in Hin as [? [=]].
  - done.
Qed.

Lemma field_Forall2 line line' i :
  Forall2 (λ f f', strip f = strip f') line line' →
  field line i = field line' i.
Proof.
  intros H. revert i. unfold field.
  induction H as [|f f' line line' Hf _ IH]; intros [|i]; try reflexivity.
  - exact Hf.
  - apply IH.
Qed.

(** Two calls that differ in the audit string only pass the same value for
    every other parameter. *)
Lemma dict_or_common_params_raw id raw raw' ts cat tt specific k :
  k ≠ "raw_data" →
  dict_or (common_params id raw ts cat tt) specific !! k
  = dict_or (common_params id raw' ts cat tt) specific !! k.
Proof.
  intros Hraw. unfold dict_or. rewrite !lookup_union. f_equal.
  unfold common_params.
  destruct (decide (k = "plugin")) as [->|]; [by rewrite !lookup_insert_eq|].
  rewrite !(lookup_insert_ne _ "plugin") by done.
  destruct (decide (k = "unique_id")) as [->|]; [by rewrite !lookup_insert_eq|].
  rewrite !(lookup_insert_ne _ "unique_id") by done.
  by rewrite !(lookup_insert_ne _ "raw_data") by done.
Qed.

(** X8: white space around the fields of a row changes nothing but the
    audit string: two rows whose fields are equal once stripped yield
    records of the same kind with the same arguments, [raw_data] apart (and
    a row yields nothing exactly when the other one does). *)
Theorem mapping_ignores_surrounding_whitespace self line line' :
  strip <$> line = strip <$> line' →
  Forall2 (λ t t',
    match t, t' with
    | InTransaction _, InTransaction _
    | IntraTransaction _, IntraTransaction _
    | OutTransaction _, OutTransaction _ => True
    | _, _ => False
    end
    ∧ ∀ k, k ≠ "raw_data" → kwargs_of t !! k = kwargs_of t' !! k)
    (emitted self line) (emitted self line').
Proof.
  intros H. apply list_eq_Forall2 in H.
  apply (Forall2_fmap_1 strip strip eq) in H.
  pose proof (Forall2_length _ _ _ H) as Hlen.
  pose proof (λ i, field_Forall2 line line' i H) as Hfield.
  rewrite !emitted_table. unfold required_fields, mapped_record. cbv zeta.
  rewrite !Hfield, Hlen.
  case_decide; [|constructor].
  repeat case_match; cbn [option_list]; repeat constructor;
    intros k Hk; cbn [kwargs_of]; by apply dict_or_common_params_raw.
Qed.

Lemma filter_error_row_log line :
  filter (λ r, levelname r = ERROR) (row_log line) =
    if decide (field line __TRANSACTION_TYPE_INDEX ∉
         [_REFERRAL_COMMISSION; _STAKING_REWARDS; _CRYPTO_DEPOSIT;
          _CRYPTO_WITHDRAWAL; _BUY; _SELL; _USD_DEPOSIT])
    then [mkLog ERROR
            "Unsupported transaction type (skipping): %s. Please open an issue at %s"
            [LStr (join __DELIMITER line); LStr ISSUES_URL]]
    else [].
Proof.
  unfold row_log, row_notice, trace. cbv zeta.
  destruct (py_in _ [_REFERRAL_COMMISSION; _STAKING_REWARDS]) eqn:E1;
    [|destruct (bool_decide (_ = _CRYPTO_DEPOSIT)) eqn:E2;
      [|destruct (bool_decide (_ = _CRYPTO_WITHDRAWAL)) eqn:E3;
        [|destruct (py_in _ [_BUY; _SELL]) eqn:E4;
          [|destruct (bool_decide (field line __TRANSACTION_TYPE_INDEX = _USD_DEPOSIT)) eqn:E5]]]].
  1-5: rewrite decide_False; [reflexivity|]; intros Hn; apply Hn; clear Hn.
  - apply py_in_spec in E1.
    apply elem_of_cons in E1 as [->|E1]; [by left|].
    apply list_elem_of_singleton in E1 as ->. by right; left.
  - apply bool_decide_eq_true in E2. rewrite E2. by do 2 right; left.
  - apply bool_decide_eq_true in E3. rewrite E3. by do 3 right; left.
  - apply py_in_spec in E4.
    apply elem_of_cons in E4 as [->|E4]; [by do 4 right; left|].
    apply list_elem_of_singleton in E4 as ->. by do 5 right; left.
  - apply bool_decide_eq_true in E5. rewrite E5. by do 6 right; left.
  - rewrite decide_True; [reflexivity|]. intros Hin.
    apply bool_decide_eq_false in E2, E3, E5.
    repeat (apply elem_of_cons in Hin as [Hin|Hin]);
      try (rewrite Hin in E1; discriminate E1);
      try (rewrite Hin in E4; discriminate E4); try done.
    by apply elem_of_nil in Hin.
Qed.

(** X9: in the log of a call that returns, the records at error level are,
    in the order of the rows, the notices of the rows whose transaction type
    is none of the seven literals the rules test: one per such row, with the
    text of the row and the address for issues. *)
Theorem error_records_are_unsupported_rows self header rows lg res :
  csv_rows (transaction_csv_file self) = Some (header :: rows) →
  load self = (lg, Return res) →
  filter (λ r, levelname r = ERROR) lg =
    (λ line,
       mkLog ERROR
         "Unsupported transaction type (skipping): %s. Please open an issue at %s"
         [LStr (join __DELIMITER line); LStr ISSUES_URL])
    <$> filter (λ line, field line __TRANSACTION_TYPE_INDEX ∉
          [_REFERRAL_COMMISSION; _STAKING_REWARDS; _CRYPTO_DEPOSIT;
           _CRYPTO_WITHDRAWAL; _BUY; _SELL; _USD_DEPOSIT]) rows.
Proof.
  intros Hf Hload.
  destruct (load_returned _ _ _ _ _ Hf Hload) as [Hrows _].
  rewrite (load_table _ _ _ Hf Hrows) in Hload. injection Hload as <- _.
  rewrite filter_cons_False by done.
  clear Hf Hrows. induction rows as [|line rows IH]; [done|].
  cbn [fmap list_fmap concat]. rewrite filter_app, filter_error_row_log, IH.
  rewrite (filter_cons _ line). by case_decide.
Qed.
Lemma filter_trace_row_log line :
  filter (λ r, msg r = "Transaction: %s") (row_log line) = [trace line].
Proof.
  unfold row_log, row_notice. cbv zeta.
  rewrite filter_cons_True by done. f_equal.
  repeat case_match; try done; by rewrite filter_cons_False.
Qed.

(** X10: in the log of a call that returns, the records with the format
    "Transaction: %s" are the traces of the rows of the file, one per row and
    in their order, each with the row joined by the delimiter. *)
Theorem every_row_is_traced_once self header rows lg res :
  csv_rows (transaction_csv_file self) = Some (header :: rows) →
  load self = (lg, Return res) →
  filter (λ r, msg r = "Transaction: %s") lg =
    (λ line, mkLog DEBUG "Transaction: %s" [LStr (join __DELIMITER line)])
    <$> rows.
Proof.
  intros Hf Hload.
  destruct (load_returned _ _ _ _ _ Hf Hload) as [Hrows _].
  rewrite (load_table _ _ _ Hf Hrows) in Hload. injection Hload as <- _.
  rewrite filter_cons_False by done.
  clear Hf Hrows. induction rows as [|line rows IH]; [done|].
  cbn [fmap list_fmap concat]. by rewrite filter_app, filter_trace_row_log, IH.
Qed.

End Load.

(** ** The theorems at the sample exports *)

(** [strip] removes ASCII and other Unicode white space, at both ends only. *)
Example strip_padded_type :
  strip ([32; 160] ++ lit "Crypto Deposit" ++ [9; 8195; 10])%N = _CRYPTO_DEPOSIT.
Proof. reflexivity. Qed.

Lemma sell_row_mapped_as_buy_sample :
  12 ≤ length sample_sell
  ∧ field sample_sell __TRANSACTION_TYPE_INDEX = _SELL
  ∧ ∃ kw,
      load_line sample_url sample_value sample_plugin sample_sell initial =
        (mkState [InTransaction kw] [trace sample_sell], Return ())
      ∧ kw !! "transaction_type" = Some (lit "buy")
      ∧ kw !! "asset" = Some (lit "ETH")
      ∧ kw !! "crypto_in" = Some (lit "0.5")
      ∧ kw !! "spot_price" = Some (lit "1500.00").
Proof.
  assert (12 ≤ length sample_sell) as Hl by (vm_compute; lia).
  assert (field sample_sell __TRANSACTION_TYPE_INDEX = _SELL) as Ht
    by (vm_compute; reflexivity).
  do 2 (split; [assumption|]).
  destruct (sell_row_mapped_as_buy sample_url sample_value sample_plugin
              sample_sell initial Hl Ht)
    as (kw & Hrun & Htype & Hasset & Hin & Hspot & _).
  exists kw. repeat split; assumption.
Defined.

Lemma buy_sell_fee_is_crypto_fee_sample :
  12 ≤ length sample_buy
  ∧ field sample_buy __TRANSACTION_TYPE_INDEX = _BUY
  ∧ ∃ kw,
      load_line sample_url sample_value sample_plugin sample_buy initial =
        (mkState [InTransaction kw] [trace sample_buy], Return ())
      ∧ kw !! "crypto_fee" = Some (lit "400.00")
      ∧ kw !! "fiat_fee" = None.
Proof.
  assert (12 ≤ length sample_buy) as Hl by (vm_compute; lia).
  assert (field sample_buy __TRANSACTION_TYPE_INDEX = _BUY) as Ht
    by (vm_compute; reflexivity).
  do 2 (split; [assumption|]).
  destruct (buy_sell_fee_is_crypto_fee sample_url sample_value sample_plugin
              sample_buy initial Hl (or_introl Ht))
    as (kw & Hrun & Hfee & _ & Hfiat).
  exists kw. repeat split; assumption.
Defined.

(** C4, as stated, fails on a "Buy" row: the record it yields is given the
    USD value of the trade as [crypto_fee], and no [fiat_fee] at all. *)
Lemma buy_row_passes_no_fiat_fee :
  ∃ kw,
    emitted sample_url sample_value sample_plugin sample_buy = [InTransaction kw]
    ∧ field sample_buy __BASE_ASSET_AMOUNT_SPOT_PRICE_INDEX = lit "400.00"
    ∧ kw !! "fiat_fee" = None
    ∧ kw !! "fiat_fee" ≠ Some (lit "400.00")
    ∧ kw !! "crypto_fee" = Some (lit "400.00").
Proof.
  eexists. split; [vm_compute; reflexivity|].
  repeat split; try (vm_compute; reflexivity). vm_compute. discriminate.
Qed.

Lemma reward_row_inflow_sample :
  9 ≤ length sample_staking
  ∧ field sample_staking __TRANSACTION_TYPE_INDEX = _STAKING_REWARDS
  ∧ ∃ kw,
      load_line sample_url sample_value sample_plugin sample_staking initial =
        (mkState [InTransaction kw] [trace sample_staking], Return ())
      ∧ kw !! "asset" = Some (lit "ADA")
      ∧ kw !! "fiat_fee" = Some (lit "0")
      ∧ kw !! "crypto_in" = Some (lit "5.0")
      ∧ kw !! "spot_price" = Some (lit "4.50")
      ∧ kw !! "transaction_type" = Some (lit "interest").
Proof.
  assert (9 ≤ length sample_staking) as Hl by (vm_compute; lia).
  assert (field sample_staking __TRANSACTION_TYPE_INDEX = _STAKING_REWARDS) as Ht
    by (vm_compute; reflexivity).
  do 2 (split; [assumption|]).
  destruct (reward_row_inflow sample_url sample_value sample_plugin
              sample_staking initial Hl (or_introl Ht))
    as (kw & Hrun & Hasset & Hfee & Hin & Hspot & Hinterest & _).
  exists kw. repeat split; try assumption. exact (Hinterest Ht).
Defined.

Lemma crypto_transfer_rows_sample :
  9 ≤ length sample_crypto_withdrawal
  ∧ sample_value UNKNOWN ≠ []
  ∧ field sample_crypto_withdrawal __TRANSACTION_TYPE_INDEX = _CRYPTO_WITHDRAWAL
  ∧ ∃ kw,
      load_line sample_url sample_value sample_plugin sample_crypto_withdrawal
        initial =
        (mkState [IntraTransaction kw] [trace sample_crypto_withdrawal], Return ())
      ∧ kw !! "crypto_received" = Some (lit "0")
      ∧ kw !! "crypto_sent" = Some (lit "0.1")
      ∧ kw !! "from_exchange" = Some (lit "Binance.us")
      ∧ kw !! "from_holder" = Some (lit "alice")
      ∧ kw !! "to_exchange" = Some (lit "__unknown")
      ∧ kw !! "to_holder" = Some (lit "__unknown").
Proof.
  assert (9 ≤ length sample_crypto_withdrawal) as Hl by (vm_compute; lia).
  assert (sample_value UNKNOWN ≠ []) as Hu by (vm_compute; discriminate).
  assert (field sample_crypto_withdrawal __TRANSACTION_TYPE_INDEX
          = _CRYPTO_WITHDRAWAL) as Ht by (vm_compute; reflexivity).
  do 3 (split; [assumption|]).
  destruct (crypto_transfer_rows sample_url sample_value sample_plugin
              sample_crypto_withdrawal initial Hl Hu) as [_ Hw].
  destruct (Hw Ht) as (kw & Hrun & Hrecv & Hsent & Hfe & Hfh & Hte & Hth & _).
  exists kw. repeat split; assumption.
Defined.

Lemma usd_deposit_row_skipped_sample :
  7 ≤ length sample_usd_deposit
  ∧ field sample_usd_deposit __TRANSACTION_TYPE_INDEX = _USD_DEPOSIT
  ∧ load_line sample_url sample_value sample_plugin sample_usd_deposit initial =
      (mkState []
         [trace sample_usd_deposit;
          mkLog DEBUG "Skipping USD deposit %s"
            [LStr (join __DELIMITER sample_usd_deposit)]],
       Return ()).
Proof.
  assert (7 ≤ length sample_usd_deposit) as Hl by (vm_compute; lia).
  assert (field sample_usd_deposit __TRANSACTION_TYPE_INDEX = _USD_DEPOSIT) as Ht
    by (vm_compute; reflexivity).
  do 2 (split; [assumption|]).
  exact (proj1 (usd_deposit_row_skipped sample_url sample_value sample_plugin
                  sample_usd_deposit [] initial Hl Ht)).
Defined.

(** C5, as stated, fails: the plugin is constructed with EUR as reporting
    currency, and a "EUR Deposit" row draws the error-level notice of an
    unsupported type; a "USD Deposit" row is skipped, with two records at
    debug level, its trace and the skip notice. *)
Lemma reporting_currency_deposit_not_skipped :
  native_fiat sample_plugin = Some (lit "EUR")
  ∧ load sample_url sample_value
      (sample_file [sample_header; sample_eur_deposit; sample_usd_deposit])
      sample_plugin =
    ([mkLog DEBUG "Header: %s" [LList sample_header];
      trace sample_eur_deposit;
      mkLog ERROR
        "Unsupported transaction type (skipping): %s. Please open an issue at %s"
        [LStr (join __DELIMITER sample_eur_deposit); LStr sample_url];
      trace sample_usd_deposit;
      mkLog DEBUG "Skipping USD deposit %s"
        [LStr (join __DELIMITER sample_usd_deposit)]],
     Return []).
Proof. split; vm_compute; reflexivity. Qed.

Lemma unsupported_row_skipped_sample :
  7 ≤ length sample_others
  ∧ (field sample_others __TRANSACTION_TYPE_INDEX ∉
      [_REFERRAL_COMMISSION; _STAKING_REWARDS; _CRYPTO_DEPOSIT;
       _CRYPTO_WITHDRAWAL; _BUY; _SELL; _USD_DEPOSIT])
  ∧ for_lines sample_url sample_value sample_plugin
      [sample_others; sample_usd_deposit] initial =
    for_lines sample_url sample_value sample_plugin [sample_usd_deposit]
      (mkState []
         [trace sample_others;
          mkLog ERROR
            "Unsupported transaction type (skipping): %s. Please open an issue at %s"
            [LStr (join __DELIMITER sample_others); LStr sample_url]]).
Proof.
  assert (7 ≤ length sample_others) as Hl by (vm_compute; lia).
  assert (field sample_others __TRANSACTION_TYPE_INDEX ∉
      [_REFERRAL_COMMISSION; _STAKING_REWARDS; _CRYPTO_DEPOSIT;
       _CRYPTO_WITHDRAWAL; _BUY; _SELL; _USD_DEPOSIT]) as Ht.
  { repeat (apply not_elem_of_cons; split); try (vm_compute; discriminate).
    apply not_elem_of_nil. }
  do 2 (split; [assumption|]).
  exact (proj2 (unsupported_row_skipped sample_url sample_value sample_plugin
                  sample_others [sample_usd_deposit] initial Hl Ht)).
Defined.

Lemma records_carry_common_attributes_sample :
  ∃ lg res,
    load sample_url sample_value (sample_file (sample_header :: sample_rows))
      sample_plugin = (lg, Return res)
    ∧ length res = 6
    ∧ Forall (λ t, ∃ line,
        line ∈ sample_rows
        ∧ kwargs_of t !! "timestamp" =
            Some (field line __TIMESTAMP_INDEX ++ lit " -00:00")
        ∧ kwargs_of t !! "raw_data" = Some (join __DELIMITER line)
        ∧ kwargs_of t !! "unique_id" = Some (field line __TRANSACTION_ID_INDEX))
        res.
Proof.
  set (file := sample_file (sample_header :: sample_rows)).
  set (res := concat (emitted sample_url sample_value sample_plugin <$> sample_rows)).
  set (lg := (load sample_url sample_value file sample_plugin).1).
  assert (file (transaction_csv_file sample_plugin)
          = Some (sample_header :: sample_rows)) as Hf by (vm_compute; reflexivity).
  assert (load sample_url sample_value file sample_plugin = (lg, Return res))
    as Hload by (vm_compute; reflexivity).
  exists lg, res. split; [exact Hload|]. split; [vm_compute; reflexivity|].
  pose proof (records_carry_common_attributes sample_url sample_value file
              sample_plugin sample_header sample_rows lg res Hf Hload) as Hall.
  eapply Forall_impl; [exact Hall|].
  intros t (line & Hin & _ & Hts & Hraw & Hid & _). exists line. repeat split; assumption.
Defined.

Lemma load_keeps_row_order_sample :
  ∃ lg k1 k2 k3 k4 k5 k6,
    load sample_url sample_value (sample_file (sample_header :: sample_rows))
      sample_plugin =
      (lg, Return [InTransaction k1; InTransaction k2; InTransaction k3;
                   IntraTransaction k4; IntraTransaction k5; InTransaction k6])
    ∧ (k1 !! "unique_id", k2 !! "unique_id", k3 !! "unique_id",
       k4 !! "unique_id", k5 !! "unique_id", k6 !! "unique_id")
      = (Some (lit "TX1"), Some (lit "TX4"), Some (lit "TX6"),
         Some (lit "TX7"), Some (lit "TX8"), Some (lit "TX5")).
Proof.
  set (file := sample_file (sample_header :: sample_rows)).
  assert (file (transaction_csv_file sample_plugin)
          = Some (sample_header :: sample_rows)) as Hf by (vm_compute; reflexivity).
  destruct (load_keeps_row_order sample_url sample_value file sample_plugin
              sample_header sample_rows Hf) as (_ & _ & Hret).
  destruct Hret as [lg Hload].
  { repeat (apply Forall_cons_2; [vm_compute; lia|]). apply Forall_nil_2. }
  exists lg. rewrite Hload. do 6 eexists.
  split; vm_compute; reflexivity.
Defined.

Lemma malformed_row_aborts_load_sample :
  ∃ lg,
    load sample_url sample_value
      (sample_file [sample_header; sample_staking; sample_cut_staking; sample_buy])
      sample_plugin = (lg, Raise IndexError).
Proof.
  set (file := sample_file [sample_header; sample_staking; sample_cut_staking; sample_buy]).
  assert (file (transaction_csv_file sample_plugin)
          = Some [sample_header; sample_staking; sample_cut_staking; sample_buy])
    as Hf by (vm_compute; reflexivity).
  assert (Exists (λ line, length line < required_fields line)
            [sample_staking; sample_cut_staking; sample_buy]) as Hex.
  { apply Exists_cons_tl, Exists_cons_hd. vm_compute. lia. }
  exact (proj1 (malformed_row_aborts_load sample_url sample_value file
                  sample_plugin sample_header _ Hf Hex)).
Defined.

Lemma short_row_aborts_before_classification_sample :
  length sample_short < 7
  ∧ field sample_short __TRANSACTION_TYPE_INDEX = _USD_DEPOSIT
  ∧ load_line sample_url sample_value sample_plugin sample_short initial =
      (mkState [] [trace sample_short], Raise IndexError).
Proof.
  assert (length sample_short < 7) as Hl by (vm_compute; lia).
  split; [assumption|]. split; [vm_compute; reflexivity|].
  exact (proj1 (short_row_aborts_before_classification sample_url sample_value
                  (sample_file []) sample_plugin sample_short Hl) initial).
Defined.

(** ** The whole call at the sample exports *)

Lemma load_returns_no_out_transaction_sample :
  ∃ lg res,
    load sample_url sample_value (sample_file (sample_header :: sample_rows))
      sample_plugin = (lg, Return res)
    ∧ length res = 6
    ∧ Forall (λ t, ∀ kw, t ≠ OutTransaction kw) res.
Proof.
  set (file := sample_file (sample_header :: sample_rows)).
  set (res := concat (emitted sample_url sample_value sample_plugin <$> sample_rows)).
  set (lg := (load sample_url sample_value file sample_plugin).1).
  assert (load sample_url sample_value file sample_plugin = (lg, Return res))
    as Hload by (vm_compute; reflexivity).
  exists lg, res. split; [exact Hload|]. split; [vm_compute; reflexivity|].
  exact (load_returns_no_out_transaction sample_url sample_value file
           sample_plugin lg res Hload).
Defined.

Lemma load_ignores_native_fiat_sample :
  native_fiat sample_plugin ≠ native_fiat sample_plugin_default
  ∧ load sample_url sample_value (sample_file (sample_header :: sample_rows))
      sample_plugin
    = load sample_url sample_value (sample_file (sample_header :: sample_rows))
        sample_plugin_default.
Proof.
  split; [vm_compute; discriminate|].
  apply load_ignores_native_fiat; vm_compute; reflexivity.
Defined.

Lemma inflow_arguments_sample :
  ∃ lg res,
    load sample_url sample_value (sample_file (sample_header :: sample_rows))
      sample_plugin = (lg, Return res)
    ∧ Forall (λ t, ∀ kw, t = InTransaction kw →
        kw !! "exchange" = Some (lit "Binance.us")
        ∧ kw !! "holder" = Some (lit "alice")
        ∧ size (dom kw) = 12) res.
Proof.
  set (file := sample_file (sample_header :: sample_rows)).
  set (res := concat (emitted sample_url sample_value sample_plugin <$> sample_rows)).
  set (lg := (load sample_url sample_value file sample_plugin).1).
  assert (load sample_url sample_value file sample_plugin = (lg, Return res))
    as Hload by (vm_compute; reflexivity).
  exists lg, res. split; [exact Hload|].
  eapply Forall_impl;
    [exact (inflow_arguments sample_url sample_value file sample_plugin lg res
              Hload)|].
  intros t Ht kw Hkw. destruct (Ht kw Hkw) as (He & Hh & Hd).
  do 2 (split; [assumption|]).
  destruct Hd as [[-> _]|[-> _]]; vm_compute; reflexivity.
Defined.

Lemma transfer_arguments_sample :
  ∃ lg res,
    load sample_url sample_value (sample_file (sample_header :: sample_rows))
      sample_plugin = (lg, Return res)
    ∧ Forall (λ t, ∀ kw, t = IntraTransaction kw →
        size (dom kw) = 13
        ∧ kw !! "crypto_fee" = None
        ∧ kw !! "fiat_fee" = None) res.
Proof.
  set (file := sample_file (sample_header :: sample_rows)).
  set (res := concat (emitted sample_url sample_value sample_plugin <$> sample_rows)).
  set (lg := (load sample_url sample_value file sample_plugin).1).
  assert (file (transaction_csv_file sample_plugin)
          = Some (sample_header :: sample_rows)) as Hf by (vm_compute; reflexivity).
  assert (load sample_url sample_value file sample_plugin = (lg, Return res))
    as Hload by (vm_compute; reflexivity).
  exists lg, res. split; [exact Hload|].
  eapply Forall_impl;
    [exact (transfer_arguments sample_url sample_value file sample_plugin
              sample_header sample_rows lg res Hf Hload)|].
  intros t Ht kw Hkw. destruct (Ht kw Hkw) as (-> & Hc & Hfiat & _).
  split; [vm_compute; reflexivity|]. split; assumption.
Defined.

Lemma load_result_length_sample :
  length sample_rows = 8
  ∧ ∃ lg res,
      load sample_url sample_value (sample_file (sample_header :: sample_rows))
        sample_plugin = (lg, Return res)
      ∧ length res = 6.
Proof.
  split; [reflexivity|].
  set (file := sample_file (sample_header :: sample_rows)).
  set (res := concat (emitted sample_url sample_value sample_plugin <$> sample_rows)).
  set (lg := (load sample_url sample_value file sample_plugin).1).
  assert (file (transaction_csv_file sample_plugin)
          = Some (sample_header :: sample_rows)) as Hf by (vm_compute; reflexivity).
  assert (load sample_url sample_value file sample_plugin = (lg, Return res))
    as Hload by (vm_compute; reflexivity).
  exists lg, res. split; [exact Hload|].
  rewrite (load_result_length sample_url sample_value file sample_plugin
             sample_header sample_rows lg res Hf Hload).
  vm_compute. reflexivity.
Defined.

Lemma load_stops_at_first_malformed_row_sample :
  ∃ lg,
    load sample_url sample_value
      (sample_file [sample_header; sample_staking; sample_cut_staking; sample_buy])
      sample_plugin = (lg ++ [trace sample_cut_staking], Raise IndexError).
Proof.
  set (file := sample_file [sample_header; sample_staking; sample_cut_staking; sample_buy]).
  assert (file (transaction_csv_file sample_plugin)
          = Some (sample_header :: [sample_staking] ++ sample_cut_staking :: [sample_buy]))
    as Hf by (vm_compute; reflexivity).
  assert (Forall (λ line, required_fields line ≤ length line) [sample_staking])
    as Hpre by (apply Forall_cons_2; [vm_compute; lia|apply Forall_nil_2]).
  assert (length sample_cut_staking < required_fields sample_cut_staking)
    as Hbad by (vm_compute; lia).
  exact (proj2 (load_stops_at_first_malformed_row sample_url sample_value file
                  sample_plugin sample_header [sample_staking]
                  sample_cut_staking [sample_buy] Hf Hpre Hbad)).
Defined.

Lemma mapping_ignores_surrounding_whitespace_sample :
  sample_sell_padded ≠ sample_sell
  ∧ length (emitted sample_url sample_value sample_plugin sample_sell) = 1
  ∧ Forall2 (λ t t', ∀ k, k ≠ "raw_data" → kwargs_of t !! k = kwargs_of t' !! k)
      (emitted sample_url sample_value sample_plugin sample_sell)
      (emitted sample_url sample_value sample_plugin sample_sell_padded).
Proof.
  split; [vm_compute; discriminate|]. split; [vm_compute; reflexivity|].
  assert (strip <$> sample_sell = strip <$> sample_sell_padded) as Hfields
    by (vm_compute; reflexivity).
  eapply Forall2_impl;
    [exact (mapping_ignores_surrounding_whitespace sample_url sample_value
              sample_plugin sample_sell sample_sell_padded Hfields)|].
  intros t t' [_ Hk]. exact Hk.
Defined.

Lemma error_records_are_unsupported_rows_sample :
  ∃ lg res,
    load sample_url sample_value (sample_file (sample_header :: sample_rows))
      sample_plugin = (lg, Return res)
    ∧ filter (λ r, levelname r = ERROR) lg =
        [mkLog ERROR
           "Unsupported transaction type (skipping): %s. Please open an issue at %s"
           [LStr (join __DELIMITER sample_others); LStr sample_url]].
Proof.
  set (file := sample_file (sample_header :: sample_rows)).
  set (res := concat (emitted sample_url sample_value sample_plugin <$> sample_rows)).
  set (lg := (load sample_url sample_value file sample_plugin).1).
  assert (file (transaction_csv_file sample_plugin)
          = Some (sample_header :: sample_rows)) as Hf by (vm_compute; reflexivity).
  assert (load sample_url sample_value file sample_plugin = (lg, Return res))
    as Hload by (vm_compute; reflexivity).
  exists lg, res. split; [exact Hload|].
  rewrite (error_records_are_unsupported_rows sample_url sample_value file
             sample_plugin sample_header sample_rows lg res Hf Hload).
  vm_compute. reflexivity.
Defined.

Lemma every_row_is_traced_once_sample :
  ∃ lg res,
    load sample_url sample_value (sample_file (sample_header :: sample_rows))
      sample_plugin = (lg, Return res)
    ∧ filter (λ r, msg r = "Transaction: %s") lg = trace <$> sample_rows.
Proof.
  set (file := sample_file (sample_header :: sample_rows)).
  set (res := concat (emitted sample_url sample_value sample_plugin <$> sample_rows)).
  set (lg := (load sample_url sample_value file sample_plugin).1).
  assert (file (transaction_csv_file sample_plugin)
          = Some (sample_header :: sample_rows)) as Hf by (vm_compute; reflexivity).
  assert (load sample_url sample_value file sample_plugin = (lg, Return res))
    as Hload by (vm_compute; reflexivity).
  exists lg, res. split; [exact Hload|].
  exact (every_row_is_traced_once sample_url sample_value file sample_plugin
           sample_header sample_rows lg res Hf Hload).
Defined.
